(** * URLToDocument: a shallow embedding and its verified properties

    The script downloads every URL of a CSV column, stores the response
    under [<output>/files], extracts plain text from the stored file and
    writes the collected records to [<output>/content.csv].

    Layout of this file:
    - [Py]       Python [str] values (sequences of code points) and the
                  [str], [pathlib] and [os.path] methods the script calls;
    - [Dom]      the BeautifulSoup tree operations of [getTextfromHTML];
    - [Script]   the world (file system, standard output, network trace),
                  the exception monad and the functions of
                  [URLToDocument.py] in source order;
    - [Outcome]  what a row and a batch are expected to produce, read off
                  the environment;
    - [Spec]     definitions that follow the wording of the specification,
                  used only to compare it with the code;
    - [Demo]     a concrete environment on which the script is run;
    - theorems, by component. *)

From Stdlib Require Import Ascii String.
From stdpp Require Import base numbers list gmap pretty.

Local Open Scope N_scope.

(** A Python [str] is a sequence of Unicode code points. *)
Abbreviation str := (list N).

(** [lit "abc"] is the [str] of an ASCII source literal. *)
Definition lit (x : string) : str := N_of_ascii <$> list_ascii_of_string x.
Arguments lit : simpl never.

Module Py.

(** ** Character classes *)

(** [str.isspace] on one code point (CPython [_PyUnicode_IsWhitespace]). *)
Definition isspace (c : N) : bool :=
  ((9 <=? c) && (c <=? 13)) || ((28 <=? c) && (c <=? 32))
  || (c =? 133) || (c =? 160) || (c =? 5760)
  || ((8192 <=? c) && (c <=? 8202))
  || (c =? 8232) || (c =? 8233) || (c =? 8239) || (c =? 8287) || (c =? 12288).

(** Line boundaries of [str.splitlines] (CPython [_PyUnicode_IsLinebreak]). *)
Definition islinebreak (c : N) : bool :=
  ((10 <=? c) && (c <=? 13)) || ((28 <=? c) && (c <=? 30))
  || (c =? 133) || (c =? 8232) || (c =? 8233).

(** The character is no line boundary. *)
Definition nobreak (c : N) : Prop := islinebreak c = false.

Definition SPACE : N := 32.
Definition LF : N := 10.
Definition CR : N := 13.
Definition SLASH : N := 47.
Definition DOT : N := 46.

(** ** [str] methods *)

Fixpoint lstrip (s : str) : str :=
  match s with
  | c :: r => if isspace c then lstrip r else s
  | [] => []
  end.

Fixpoint rstrip (s : str) : str :=
  match s with
  | [] => []
  | c :: r =>
      match rstrip r with
      | [] => if isspace c then [] else [c]
      | r' => c :: r'
      end
  end.

(** [s.strip()] *)
Definition strip (s : str) : str := rstrip (lstrip s).

(** [s.splitlines()]: cut at every line boundary, [\r\n] counting as one;
    no empty last line is produced for a trailing boundary. *)
Fixpoint splitlines (s : str) : list str :=
  match s with
  | [] => []
  | c :: r =>
      if islinebreak c then
        match r with
        | d :: r' => if (c =? CR) && (d =? LF) then [] :: splitlines r'
                     else [] :: splitlines r
        | [] => [[]]
        end
      else
        match splitlines r with
        | [] => [[c]]
        | l :: ls => (c :: l) :: ls
        end
  end.

(** [s.split(sep)] for a one-character separator. *)
Fixpoint split_char (sep : N) (s : str) : list str :=
  match s with
  | [] => [[]]
  | c :: r =>
      if c =? sep then [] :: split_char sep r
      else match split_char sep r with
           | l :: ls => (c :: l) :: ls
           | [] => [[c]]
           end
  end.

(** [s.split("  ")]: cut at every leftmost, non-overlapping pair of spaces. *)
Fixpoint split_2sp (s : str) : list str :=
  match s with
  | [] => [[]]
  | c :: r =>
      match r with
      | d :: r' =>
          if (c =? SPACE) && (d =? SPACE) then [] :: split_2sp r'
          else match split_2sp r with
               | l :: ls => (c :: l) :: ls
               | [] => [[c]]
               end
      | [] => [[c]]
      end
  end.

(** [sep.join(parts)] *)
Fixpoint join (sep : str) (parts : list str) : str :=
  match parts with
  | [] => []
  | [p] => p
  | p :: ps => p ++ sep ++ join sep ps
  end.

(** [s.replace(old, new)] where [old] and [new] are single characters, as in
    both calls of the script. *)
Definition replace_char (old new : N) (s : str) : str :=
  (λ c, if c =? old then new else c) <$> s.

(** [re.sub(re.compile(r' +'), ' ', s)]: every maximal run of spaces
    becomes one space. *)
Fixpoint sub_spaces (s : str) : str :=
  match s with
  | [] => []
  | c :: r =>
      if c =? SPACE then
        match r with
        | d :: _ => if d =? SPACE then sub_spaces r else c :: sub_spaces r
        | [] => [c]
        end
      else c :: sub_spaces r
  end.

(** [s.ljust(width)] *)
Definition ljust (width : nat) (s : str) : str :=
  s ++ replicate (width - length s)%nat SPACE.

(** [str(n)] for a non-negative [int]. *)
Definition str_of_nat (n : nat) : str := lit (pretty n).

(** [s.rfind(c)] for a one-character needle: the last index, or [-1]. *)
Fixpoint rfind (c : N) (s : str) : Z :=
  match s with
  | [] => (-1)%Z
  | d :: r =>
      let i := rfind c r in
      if (0 <=? i)%Z then (i + 1)%Z
      else if d =? c then 0%Z else (-1)%Z
  end.

(** ** [pathlib] on a POSIX host (CPython 3.7 to 3.13) *)

(** The components of [PurePosixPath(s)] behind the root: the pieces between
    slashes, without the empty ones and without ["."]. *)
Definition path_tail (s : str) : list str :=
  filter (λ p, p ≠ [] ∧ p ≠ [DOT]) (split_char SLASH s).

(** [Path(s).name] *)
Definition path_name (s : str) : str := default [] (last (path_tail s)).

(** [Path(s).suffix]: from the last dot of the name, unless that dot is the
    first or the last character of the name. *)
Definition path_suffix (s : str) : str :=
  let name := path_name s in
  let i := rfind DOT name in
  if ((0 <? i) && (i <? Z.of_nat (length name) - 1))%Z
  then drop (Z.to_nat i) name else [].

(** [Path(s).stem] *)
Definition path_stem (s : str) : str :=
  let name := path_name s in
  let i := rfind DOT name in
  if ((0 <? i) && (i <? Z.of_nat (length name) - 1))%Z
  then take (Z.to_nat i) name else name.

(** [os.path.join(a, b)] ([posixpath.join] with two arguments). *)
Definition os_path_join (a b : str) : str :=
  match b with
  | c :: _ =>
      if c =? SLASH then b
      else match last a with
           | None => b
           | Some e => if e =? SLASH then a ++ b else a ++ [SLASH] ++ b
           end
  | [] =>
      match last a with
      | None => b
      | Some e => if e =? SLASH then a ++ b else a ++ [SLASH] ++ b
      end
  end.

End Py.

(** * The BeautifulSoup tree

    [BeautifulSoup(html, "html.parser")] yields a tree of tags and strings.
    [Special] stands for the string kinds [get_text] never returns
    (comments, doctypes, processing instructions). *)
Module Dom.

#[local] Unset Elimination Schemes.

Inductive node :=
| Text (s : str)
| Special (s : str)
| Tag (name : str) (children : list node).

#[local] Set Elimination Schemes.

(** The tree after [for t in soup(names): t.decompose()]: [soup(names)] is
    [find_all], the list of every descendant tag whose name is in [names];
    decomposing each of them leaves the tree without those tags (a matching
    tag nested in another one goes with its ancestor). A node maps to the
    list of what is left of it: nothing, or itself with its children
    processed. *)
Fixpoint decompose (names : list str) (n : node) : list node :=
  match n with
  | Tag nm ch =>
      if bool_decide (nm ∈ names) then []
      else [Tag nm (concat (map (decompose names) ch))]
  | _ => [n]
  end.

Definition decompose_all (names : list str) (soup : list node) : list node :=
  concat (map (decompose names) soup).

(** [get_text()]: the strings of the tree in document order, no separator. *)
Fixpoint node_text (n : node) : str :=
  match n with
  | Text s => s
  | Special _ => []
  | Tag _ ch => concat (map node_text ch)
  end.

Definition get_text (soup : list node) : str := concat (map node_text soup).

(** Some tag of the subtree is named in [names]. *)
Fixpoint has_tag (names : list str) (n : node) : bool :=
  match n with
  | Tag nm ch => bool_decide (nm ∈ names) || existsb (has_tag names) ch
  | _ => false
  end.

(** The same node with every tag named in [names] emptied: what is left of
    a document when the content of those elements is disregarded. *)
Fixpoint blank (names : list str) (n : node) : node :=
  match n with
  | Tag nm ch =>
      if bool_decide (nm ∈ names) then Tag nm [] else Tag nm (map (blank names) ch)
  | _ => n
  end.

End Dom.

(** * The script *)
Module Script.

Abbreviation bytes := (list Byte.byte).

(** ** Python values that cross the functions of the script *)

(** What [pdfToText] and [getTextFromFile] hand back: [None] or a [str]. *)
Inductive value :=
| VNone
| VStr (s : str).

(** The dictionary built by [processURL], keys [name], [ext], [url], [text]. *)
Record Document := {
  d_name : str;
  d_ext : str;
  d_url : str;
  d_text : value;
}.

(** A cell of the input table: a [str], or a value of another type (pandas
    reads an empty cell as the [float] NaN), kept as its type name and its
    printed form. *)
Inductive cell :=
| CStr (s : str)
| COther (type_name : str) (printed : str).

(** A [DataFrame] as [pandas.read_csv] returns it: the column labels and the
    rows under the default index 0, 1, ...; a row maps a label to its cell. *)
Record DataFrame := {
  df_columns : list str;
  df_rows : list (str → cell);
}.

(** ** Exceptions and outcomes *)

(** [Exception msg] is any instance of [Exception], with [str(e) = msg];
    [SystemExit] is what [exit(code)] raises and [except Exception] does not
    catch. *)
Inductive exn :=
| Exception (msg : str)
| SystemExit (code : Z).

Inductive result (A : Type) :=
| Ok (a : A)
| Raise (e : exn).
Arguments Ok {A} a.
Arguments Raise {A} e.

(** The outcome of a call into a library or the operating system. *)
Inductive extcall (A : Type) :=
| Returns (a : A)
| Throws (msg : str).
Arguments Returns {A} a.
Arguments Throws {A} msg.

(** ** The libraries and the outside world *)

Record Response := {
  status_code : nat;
  content : bytes;
}.

(** PyPDF2 objects. *)
Record PageObject := {
  extractText : extcall str;
}.

Record PdfReader := {
  numPages : extcall nat;
  getPage : nat → extcall PageObject;
}.

(** Everything the script does not compute itself. Calls that depend on
    when they are made take the number of earlier calls of their kind. *)
Record Env := {
  (** [str(datetime.now())] at the n-th reading of the clock *)
  now : nat → str;
  (** [requests.get(url=.., headers=..)], as the n-th request of the run *)
  requests_get : nat → str → list (str * str) → extcall Response;
  (** why [open(path, 'wb+')] fails, if it does *)
  open_wb_fault : str → option str;
  (** why writing these bytes to the file fails, if it does, and how many of
      the bytes have reached the file by then *)
  write_fault : str → bytes → option (str * nat);
  (** why [os.mkdir(path)] fails, if it does *)
  mkdir_fault : str → option str;
  (** [PyPDF2.PdfFileReader] on the bytes of a file *)
  PdfFileReader : bytes → extcall PdfReader;
  (** [BeautifulSoup(html, "html.parser")] *)
  BeautifulSoup : bytes → extcall (list Dom.node);
  (** [pandas.read_csv] on the bytes of a file *)
  read_csv : bytes → extcall DataFrame;
  (** [str] of a list of column labels *)
  str_columns : list str → str;
}.

(** The state the script acts on. Paths are the strings the script builds.
    The files on disk are split in two maps: [fs] holds the files written
    and read as bytes, [tables] the files written by [DataFrame.to_csv],
    each kept as the rows of its table instead of their CSV text. A path
    bound in [tables] is a file on disk like one bound in [fs]. *)
Record World := {
  fs : gmap str bytes;
  dirs : gset str;
  tables : gmap str (list Document);
  stdout : list str;
  requests : list str;
  ticks : nat;
}.

Definition set_fs (f : gmap str bytes → gmap str bytes) (w : World) : World :=
  {| fs := f (fs w); dirs := dirs w; tables := tables w; stdout := stdout w;
     requests := requests w; ticks := ticks w |}.
Definition set_dirs (f : gset str → gset str) (w : World) : World :=
  {| fs := fs w; dirs := f (dirs w); tables := tables w; stdout := stdout w;
     requests := requests w; ticks := ticks w |}.
Definition set_tables (f : gmap str (list Document) → gmap str (list Document))
    (w : World) : World :=
  {| fs := fs w; dirs := dirs w; tables := f (tables w); stdout := stdout w;
     requests := requests w; ticks := ticks w |}.
Definition set_stdout (f : list str → list str) (w : World) : World :=
  {| fs := fs w; dirs := dirs w; tables := tables w; stdout := f (stdout w);
     requests := requests w; ticks := ticks w |}.
Definition set_requests (f : list str → list str) (w : World) : World :=
  {| fs := fs w; dirs := dirs w; tables := tables w; stdout := stdout w;
     requests := f (requests w); ticks := ticks w |}.
Definition set_ticks (f : nat → nat) (w : World) : World :=
  {| fs := fs w; dirs := dirs w; tables := tables w; stdout := stdout w;
     requests := requests w; ticks := f (ticks w) |}.

(** ** The monad: state passing with exceptions; the effects made before an
    exception stay. *)
Definition M (A : Type) : Type := World → result A * World.

#[export] Instance M_ret : MRet M := λ A a w, (Ok a, w).
#[export] Instance M_bind : MBind M := λ A B k m w,
  match m w with
  | (Ok a, w') => k a w'
  | (Raise e, w') => (Raise e, w')
  end.

Definition raise {A} (e : exn) : M A := λ w, (Raise e, w).

(** [try: body except Exception as e: handler(str(e))] *)
Definition try_except {A} (body : M A) (handler : str → M A) : M A := λ w,
  match body w with
  | (Raise (Exception msg), w') => handler msg w'
  | r => r
  end.

Definition call {A} (r : extcall A) : M A :=
  match r with
  | Returns a => mret a
  | Throws msg => raise (Exception msg)
  end.

(** [print(line)] *)
Definition print (line : str) : M unit := λ w,
  (Ok (), set_stdout (λ out, out ++ [line]) w).

(** [exit(code)] *)
Definition exit {A} (code : Z) : M A := raise (SystemExit code).

Section WithEnv.
Context (E : Env).

(** [dt.now()] inside an f-string *)
Definition dt_now : M str := λ w, (Ok (now E (ticks w)), set_ticks S w).

(** [open(path, 'rb')] followed by reading the whole file *)
Definition open_rb (path : str) : M bytes := λ w,
  match fs w !! path with
  | Some b => (Ok b, w)
  | None => (Raise (Exception (lit "[Errno 2] No such file or directory")), w)
  end.

(** [open(path, 'wb+')]: the file is created or emptied *)
Definition open_wb (path : str) : M unit := λ w,
  match open_wb_fault E path with
  | Some msg => (Raise (Exception msg), w)
  | None => (Ok (), set_fs (insert path []) w)
  end.

(** [outfile.write(data)] and the closing of the file; a write that fails
    leaves an initial part of the data in the file. *)
Definition file_write (path : str) (data : bytes) : M unit := λ w,
  match write_fault E path data with
  | Some (msg, n) => (Raise (Exception msg), set_fs (insert path (take n data)) w)
  | None => (Ok (), set_fs (insert path data) w)
  end.

Definition os_path_isdir (path : str) : M bool := λ w,
  (Ok (bool_decide (path ∈ dirs w)), w).

Definition os_mkdir (path : str) : M unit := λ w,
  match mkdir_fault E path with
  | Some msg => (Raise (Exception msg), w)
  | None => (Ok (), set_dirs (λ d, {[path]} ∪ d) w)
  end.

Definition http_get (url : str) (headers : list (str * str)) : M Response := λ w,
  call (requests_get E (length (requests w)) url headers)
       (set_requests (λ l, l ++ [url]) w).

Definition pd_read_csv (path : str) : M DataFrame :=
  b ← open_rb path; call (read_csv E b).

(** [pd.DataFrame.from_dict(content).to_csv(path)]: the file at [path] is
    created or replaced; it is recorded in [tables]. *)
Definition to_csv (path : str) (rows : list Document) : M unit := λ w,
  match open_wb_fault E path with
  | Some msg => (Raise (Exception msg), w)
  | None => (Ok (), set_tables (insert path rows) w)
  end.

(** ** [getTextfromHTML] *)

(** Lines 58 to 62: the lines of the text stripped, each cut at double
    spaces into phrases, the phrases stripped, the empty ones dropped, the
    rest joined by newlines. *)
Definition html_chunks (text : str) : list str :=
  let lines := Py.strip <$> Py.splitlines text in
  let chunks := concat (map (λ line, Py.strip <$> Py.split_2sp line) lines) in
  filter (λ chunk, chunk ≠ []) chunks.

Definition killed_tags : list str := [lit "script"; lit "style"].

Definition getTextfromHTML (html : bytes) : M str :=
  soup ← call (BeautifulSoup E html);
  let soup := Dom.decompose_all killed_tags soup in
  let text := Dom.get_text soup in
  let text := Py.join [Py.LF] (html_chunks text) in
  mret text.

(** ** [pdfToText] *)

(** The [while (counter < upperLimit)] loop; [remaining] is
    [upperLimit - counter]. *)
Fixpoint pdf_pages (pdfReader : PdfReader) (remaining counter : nat)
    (text : str) : M str :=
  match remaining with
  | O => mret text
  | S remaining' =>
      pageObj ← call (getPage pdfReader counter);
      text ← try_except
        (if negb (bool_decide (text = []))
         then t ← call (extractText pageObj); mret (text ++ [Py.LF] ++ t)
         else call (extractText pageObj))
        (λ e, print (lit "Text not found in document. " ++ e);; mret text);
      pdf_pages pdfReader remaining' (counter + 1)%nat text
  end.

(** Lines 99 to 102, the clean-up of the concatenated page texts. *)
Definition pdf_cleanup (text : str) : str :=
  let text := Py.replace_char 44 Py.SPACE text in
  let text := Py.join [Py.SPACE] (Py.splitlines text) in
  Py.sub_spaces (Py.strip text).

(** The text of [print("PDF Text Extract Failed - error.", e)]. *)
Definition pdf_failed_line (msg : str) : str :=
  lit "PDF Text Extract Failed - error. " ++ msg.

(** The [try] block yields the concatenated text ([inl]); its handler leaves
    the function with [return ""] ([inr]). After the clean-up the function
    body ends: there is no [return] statement, so the call evaluates to
    [None]. [pdfFileObj.close()] has no effect on the world kept here. *)
Definition pdfToText (fileLocation : str) : M value :=
  pdfFileObj ← open_rb fileLocation;
  r ← try_except
    (pdfReader ← call (PdfFileReader E pdfFileObj);
     n ← call (numPages pdfReader);
     print (lit "Number of pages: " ++ Py.str_of_nat n);;
     let counter := O in
     let text := [] in
     upperLimit ← call (numPages pdfReader);
     text ← pdf_pages pdfReader upperLimit counter text;
     mret (inl text))
    (λ e, print (pdf_failed_line e);;
          mret (inr (VStr [])));
  match r with
  | inr v => mret v
  | inl text =>
      let text := pdf_cleanup text in
      mret VNone
  end.

(** ** [getTextFromFile] *)
Definition getTextFromFile (FileWithPath ext : str) : M value :=
  if bool_decide (ext = lit ".pdf") then pdfToText FileWithPath
  else
    infile ← open_rb FileWithPath;
    text ← getTextfromHTML infile;
    mret (VStr text).

(** ** [getUrl] *)
Definition user_agent : str :=
  lit "Mozilla/5.0 (Windows NT 10.0; Win64; x64) AppleWebKit/537.36 (KHTML, like Gecko) Chrome/113.0.0.0 Safari/537.36".

Definition fetch_headers : list (str * str) := [(lit "User-Agent", user_agent)].

(** The text of the [print] in the handler of [getUrl]. *)
Definition fetch_failed_line (msg : str) : str :=
  lit ">>>Exception in getting the URL:" ++ msg.

Definition getUrl (url fileOut : str) : M bool :=
  try_except
    (let headers := fetch_headers in
     response ← http_get url headers;
     open_wb fileOut;;
     file_write fileOut (content response);;
     mret true)
    (λ e, print (fetch_failed_line e);; mret false).

(** ** [processURL] *)

(** [url.strip()]: only a [str] has the method. *)
Definition cell_strip (url : cell) : M str :=
  match url with
  | CStr s => mret (Py.strip s)
  | COther ty _ =>
      raise (Exception (lit "'" ++ ty ++ lit "' object has no attribute 'strip'"))
  end.

(** Lines 142 to 146: the extension kept for a stripped URL. *)
Definition file_ext_of (url : str) : str :=
  let file_ext := Py.path_suffix url in
  if negb (bool_decide (file_ext = lit ".pdf")) then lit ".html" else file_ext.

(** Lines 141 and 149: the file name kept for a stripped URL
    (63 is the question mark, 95 the underscore). *)
Definition file_name_of (url : str) : str :=
  let file_name := Py.path_stem url in
  Py.replace_char 63 95 file_name.

Definition processURL (url : cell) (outputDir : str) : M (option Document) :=
  url ← cell_strip url;
  let file_name := file_name_of url in
  let file_ext := file_ext_of url in
  let file_path := Py.os_path_join outputDir (file_name ++ file_ext) in
  result ← getUrl url file_path;
  if negb result then
    print (lit "ERROR Processing: " ++ file_name);;
    mret None
  else
    text ← getTextFromFile file_path file_ext;
    mret (Some {| d_name := file_name; d_ext := file_ext; d_url := url;
                  d_text := text |}).

(** ** [main] *)

(** The parsed command line. *)
Record Args := {
  output_directory : str;
  input_csv : str;
  url_field : str;
}.

(** [row[label]] *)
Definition series_get (df : DataFrame) (row : str → cell) (label : str) : M cell :=
  if bool_decide (label ∈ df_columns df) then mret (row label)
  else raise (Exception (lit "KeyError")).

(** A cell inside an f-string. *)
Definition cell_format (c : cell) : str :=
  match c with
  | CStr s => s
  | COther _ printed => printed
  end.

(** The progress line of row [ind] (line 198 and the text of line 199). *)
Definition progress_line (t : str) (ind url_count : nat) (c : cell) : str :=
  let progress :=
    Py.ljust 10 (Py.str_of_nat (ind + 1) ++ lit "/" ++ Py.str_of_nat url_count) in
  t ++ lit " | Processing " ++ progress ++ lit " | " ++ cell_format c.

(** One turn of the [for] loop. [row[URL_COLUMN]] is looked up when the
    progress line is printed, outside the [try]; later lookups give the same
    cell. A dictionary with four keys is true, [None] is false. *)
Definition process_row (df : DataFrame) (URL_COLUMN files_dr : str)
    (url_count ind : nat) (row : str → cell) (content : list Document)
    : M (list Document) :=
  c ← series_get df row URL_COLUMN;
  t ← dt_now;
  print (progress_line t ind url_count c);;
  try_except
    (result ← processURL c files_dr;
     match result with
     | Some d => mret (content ++ [d])
     | None => mret content
     end)
    (λ e, print (lit "ERROR: " ++ cell_format c ++ [Py.SPACE; Py.LF; Py.SPACE] ++ e);;
          mret content).

(** [for ind, row in urls_df.iterrows()], from index [ind] on. *)
Fixpoint main_loop (df : DataFrame) (URL_COLUMN files_dr : str)
    (url_count ind : nat) (rows : list (str → cell)) (content : list Document)
    : M (list Document) :=
  match rows with
  | [] => mret content
  | row :: rows' =>
      content ← process_row df URL_COLUMN files_dr url_count ind row content;
      main_loop df URL_COLUMN files_dr url_count (ind + 1)%nat rows' content
  end.

Definition files_dir (OUTPUT_DIR : str) : str :=
  Py.os_path_join OUTPUT_DIR (lit "files").

Definition content_csv_path (OUTPUT_DIR : str) : str :=
  Py.os_path_join OUTPUT_DIR (lit "content.csv").

Definition not_found_line (t URL_COLUMN : str) (columns : list str) : str :=
  t ++ lit " | FIELD: " ++ URL_COLUMN ++ lit " NOT FOUND IN CSV FIELDS: "
    ++ str_columns E columns.

Definition found_line (t : str) (url_count : nat) : str :=
  t ++ lit " | Found " ++ Py.str_of_nat url_count ++ lit " URLs".

(** Lines 173 to 188 of [main]: the directories, the two announcements and
    the reading of the input table. *)
Definition main_setup (args : Args) : M DataFrame :=
  let OUTPUT_DIR := output_directory args in
  let INPUT_CSV := input_csv args in
  d ← os_path_isdir OUTPUT_DIR;
  (if negb d then os_mkdir OUTPUT_DIR else mret ());;
  let files_dr := files_dir OUTPUT_DIR in
  d ← os_path_isdir files_dr;
  (if negb d then os_mkdir files_dr else mret ());;
  t ← dt_now;
  print (t ++ lit " | Output File Directory: " ++ files_dr);;
  let content_csv := content_csv_path OUTPUT_DIR in
  t ← dt_now;
  print (t ++ lit " | Output Content CSV: " ++ content_csv);;
  pd_read_csv INPUT_CSV.

(** Lines 185 and 189 to 208 of [main]: the column check, the loop and the
    output table. [exit(0)] raises, so what follows it runs only when the
    column is there. *)
Definition main_process (args : Args) (urls_df : DataFrame) : M unit :=
  let OUTPUT_DIR := output_directory args in
  let URL_COLUMN := url_field args in
  let files_dr := files_dir OUTPUT_DIR in
  let content_csv := content_csv_path OUTPUT_DIR in
  let content := [] in
  let url_count := (length (df_rows urls_df) + 1)%nat in
  if negb (bool_decide (URL_COLUMN ∈ df_columns urls_df)) then
    t ← dt_now;
    print (not_found_line t URL_COLUMN (df_columns urls_df));;
    print (lit "EXITING...");;
    exit 0
  else
    t ← dt_now;
    print (found_line t url_count);;
    content ← main_loop urls_df URL_COLUMN files_dr url_count 0 (df_rows urls_df) content;
    to_csv content_csv content.

Definition main (args : Args) : M unit :=
  urls_df ← main_setup args;
  main_process args urls_df.

End WithEnv.

(** The exit status of the interpreter after [main()]: 0 when it returns or
    [exit(0)] was called, the code of [exit(code)], 1 after an uncaught
    exception. *)
Definition exit_status {A} (r : result A) : Z :=
  match r with
  | Ok _ => 0
  | Raise (SystemExit code) => code
  | Raise (Exception _) => 1
  end.

End Script.

Import Script.

(** * What a run is expected to produce

    The outcome of a row read off the environment alone: whether its request
    is answered, its file can be written and its text can be extracted. *)
Module Outcome.
Section WithEnv.
Context (E : Env).

(** The requests a cell gives rise to. *)
Definition cell_requests (c : cell) : list str :=
  match c with
  | CStr s => [Py.strip s]
  | COther _ _ => []
  end.

(** The response stored at [path] by the [k]-th request of the run, if the
    request is answered and the file can be opened and written. *)
Definition fetched (k : nat) (url path : str) : option Response :=
  match requests_get E k url fetch_headers with
  | Returns resp =>
      match open_wb_fault E path, write_fault E path (content resp) with
      | None, None => Some resp
      | _, _ => None
      end
  | Throws _ => None
  end.

(** Why the [k]-th request of the run, for [url] into [path], fails, if it
    does: in the request, in opening the file or in writing it. *)
Definition fetch_failure (k : nat) (url path : str) : option str :=
  match requests_get E k url fetch_headers with
  | Throws msg => Some msg
  | Returns resp =>
      match open_wb_fault E path with
      | Some msg => Some msg
      | None => fst <$> write_fault E path (content resp)
      end
  end.

(** Extraction from the stored response goes through: always for a PDF,
    for the rest when the HTML parser accepts the bytes. *)
Definition extracted (ext : str) (resp : Response) : bool :=
  bool_decide (ext = lit ".pdf")
  || match BeautifulSoup E (content resp) with
     | Returns _ => true
     | Throws _ => false
     end.

(** The name, extension and URL of the record of a row, when the row is
    processed successfully as the [k]-th request. *)
Definition row_result (k : nat) (dir : str) (c : cell) : option (str * str * str) :=
  match c with
  | COther _ _ => None
  | CStr s =>
      let url := Py.strip s in
      let name := file_name_of url in
      let ext := file_ext_of url in
      match fetched k url (Py.os_path_join dir (name ++ ext)) with
      | Some resp => if extracted ext resp then Some (name, ext, url) else None
      | None => None
      end
  end.

(** What processing a cell as the [k]-th request does to the files: nothing
    when the request or the opening fails, an initial part of the response
    when the writing fails, the stored response otherwise. *)
Definition row_store (k : nat) (dir : str) (c : cell)
    (files : gmap str bytes) : gmap str bytes :=
  match c with
  | COther _ _ => files
  | CStr s =>
      let url := Py.strip s in
      let path := Py.os_path_join dir (file_name_of url ++ file_ext_of url) in
      match requests_get E k url fetch_headers with
      | Throws _ => files
      | Returns resp =>
          match open_wb_fault E path with
          | Some _ => files
          | None =>
              match write_fault E path (content resp) with
              | Some (_, n) => <[path := take n (content resp)]> files
              | None => <[path := content resp]> files
              end
          end
      end
  end.

Fixpoint batch_store (k : nat) (dir : str) (cells : list cell)
    (files : gmap str bytes) : gmap str bytes :=
  match cells with
  | [] => files
  | c :: cs =>
      batch_store (k + length (cell_requests c)) dir cs (row_store k dir c files)
  end.

(** Row by row, in input order; [k] requests were made before. *)
Fixpoint batch_results (k : nat) (dir : str) (cells : list cell)
    : list (option (str * str * str)) :=
  match cells with
  | [] => []
  | c :: cs =>
      row_result k dir c :: batch_results (k + length (cell_requests c)) dir cs
  end.

(** The part of [main] before the loop goes through and reads [df]: the
    two directories exist or can be made, the input file is there and
    pandas parses it. *)
Definition setup_ok (args : Args) (w : World) (df : DataFrame) : Prop :=
  (output_directory args ∈ dirs w ∨ mkdir_fault E (output_directory args) = None)
  ∧ (files_dir (output_directory args) ∈ dirs w
     ∨ mkdir_fault E (files_dir (output_directory args)) = None)
  ∧ ∃ b, fs w !! input_csv args = Some b ∧ read_csv E b = Returns df.

(** The cells of the URL column, in row order. *)
Definition url_cells (args : Args) (df : DataFrame) : list cell :=
  (λ row, row (url_field args)) <$> df_rows df.

End WithEnv.

(** Why PyPDF2 fails on the bytes of a file before the last page has been
    fetched, if it does: in the reader, the page count or a [getPage]. *)
Fixpoint page_error (rd : PdfReader) (remaining counter : nat) : option str :=
  match remaining with
  | O => None
  | S remaining' =>
      match getPage rd counter with
      | Throws msg => Some msg
      | Returns _ => page_error rd remaining' (counter + 1)%nat
      end
  end.

Definition pdf_error (E : Env) (b : bytes) : option str :=
  match PdfFileReader E b with
  | Throws msg => Some msg
  | Returns rd =>
      match numPages rd with
      | Throws msg => Some msg
      | Returns n => page_error rd n 0
      end
  end.

Definition doc_key (d : Document) : str * str * str := (d_name d, d_ext d, d_url d).

(** The world differs from an earlier one by printed lines only. *)
Definition only_prints (w w' : World) : Prop :=
  fs w' = fs w ∧ dirs w' = dirs w ∧ tables w' = tables w
  ∧ requests w' = requests w ∧ ticks w' = ticks w
  ∧ stdout w `prefix_of` stdout w'.

End Outcome.

(** * The specification's reading of a URL *)
Module Spec.

(** What follows the first [://] of a URL, if there is one. *)
Fixpoint after_scheme (s : str) : option str :=
  match s with
  | [] => None
  | c :: r =>
      match s with
      | 58 :: 47 :: 47 :: r' => Some r'
      | _ => after_scheme r
      end
  end.

Fixpoint from_slash (s : str) : str :=
  match s with
  | [] => []
  | c :: r => if c =? Py.SLASH then s else from_slash r
  end.

Fixpoint until_query (s : str) : str :=
  match s with
  | [] => []
  | c :: r => if (c =? 63) || (c =? 35) then [] else c :: until_query r
  end.

(** The path component of a URL: behind the authority, up to the query
    string or the fragment. *)
Definition url_path (url : str) : str :=
  match after_scheme url with
  | Some r => until_query (from_slash r)
  | None => until_query url
  end.

(** An HTTP error: a response whose status is a client or server error. *)
Definition http_error (resp : Script.Response) : bool :=
  (400 <=? Script.status_code resp)%nat.

(** "extension [.pdf] exactly when the URL's path component ends in [.pdf],
    [.html] for all other URLs" *)
Definition ext (url : str) : str :=
  if bool_decide (lit ".pdf" `suffix_of` url_path url) then lit ".pdf"
  else lit ".html".

End Spec.

(** * A concrete environment, for running the script on examples *)
Module Demo.

Definition url_a : str := lit "https://example.com/a.html".
Definition url_doc : str := lit "https://example.com/doc.pdf?v=2".
Definition url_paper : str := lit "  https://example.com/paper.pdf ".
Definition url_down : str := lit "https://down.example/index.html".

Definition html_soup : list Dom.node :=
  [Dom.Special (lit "DOCTYPE html");
   Dom.Tag (lit "html")
     [Dom.Tag (lit "head")
        [Dom.Tag (lit "style") [Dom.Text (lit "p { color: red }")];
         Dom.Tag (lit "script") [Dom.Text (lit "var x = 1;")]];
      Dom.Tag (lit "body")
        [Dom.Tag (lit "h1") [Dom.Text (lit " Title  Subtitle ")];
         Dom.Text [Py.LF; Py.LF];
         Dom.Tag (lit "p") [Dom.Text (lit "Some text.")];
         Dom.Text [Py.LF]]]].

Definition pdf_reader : PdfReader := {|
  numPages := Returns 2%nat;
  getPage := λ i,
    Returns {| extractText :=
      Returns (if bool_decide (i = O) then lit "Hello, world" ++ [Py.LF] ++ lit "again"
               else lit " second   page ") |};
|}.

Definition link_frame (cells : list cell) : DataFrame :=
  {| df_columns := [lit "id"; lit "link"]; df_rows := (λ c _, c) <$> cells |}.

(** The input files are told apart by their first byte. *)
Definition env : Env := {|
  now := λ n, lit "2023-05-01 12:00:0" ++ Py.str_of_nat n;
  requests_get := λ _ url _,
    if bool_decide (url = url_down) then Throws (lit "Connection refused")
    else Returns {| status_code := 200; content := [Byte.x25; Byte.x50] |};
  open_wb_fault := λ _, None;
  write_fault := λ _ _, None;
  mkdir_fault := λ _, None;
  PdfFileReader := λ b,
    match b with
    | [] => Throws (lit "Cannot read an empty file")
    | _ => Returns pdf_reader
    end;
  BeautifulSoup := λ _, Returns html_soup;
  read_csv := λ b,
    match b with
    | Byte.x01 :: _ => Returns (link_frame [CStr url_a; CStr url_doc])
    | Byte.x02 :: _ =>
        Returns (link_frame [CStr url_a; CStr url_down; CStr url_paper])
    | _ => Throws (lit "No columns to parse from file")
    end;
  str_columns := λ cols, lit "[" ++ Py.join (lit ", ") cols ++ lit "]";
|}.

Definition world : World := {|
  fs := {[ lit "two.csv" := [Byte.x01]; lit "three.csv" := [Byte.x02];
           lit "empty.pdf" := [] ; lit "some.pdf" := [Byte.x25] ]};
  dirs := ∅;
  tables := ∅;
  stdout := [];
  requests := [];
  ticks := 0;
|}.

Definition args (csv column : string) : Args :=
  {| output_directory := lit "out"; input_csv := lit csv; url_field := lit column |}.

End Demo.

(** * Notions used to describe the remaining behaviour of the script *)
Module Shape.

(** A list of page texts without its leading empty ones. *)
Fixpoint drop_empty (ts : list str) : list str :=
  match ts with
  | [] => []
  | t :: r => if bool_decide (t = []) then drop_empty r else ts
  end.

(** The texts of the pages [counter], [counter + 1], ... ([remaining] of
    them) whose [extractText] returns, in page order. *)
Fixpoint page_texts (rd : PdfReader) (remaining counter : nat) : list str :=
  match remaining with
  | O => []
  | S remaining' =>
      match getPage rd counter with
      | Returns page =>
          match extractText page with
          | Returns t => [t]
          | Throws _ => []
          end
      | Throws _ => []
      end ++ page_texts rd remaining' (counter + 1)%nat
  end.

(** The lines printed for the pages whose [extractText] raises. *)
Fixpoint page_warnings (rd : PdfReader) (remaining counter : nat) : list str :=
  match remaining with
  | O => []
  | S remaining' =>
      match getPage rd counter with
      | Returns page =>
          match extractText page with
          | Returns _ => []
          | Throws msg => [lit "Text not found in document. " ++ msg]
          end
      | Throws _ => []
      end ++ page_warnings rd remaining' (counter + 1)%nat
  end.

(** Two adjacent spaces occur in the string. *)
Fixpoint has_2sp (s : str) : bool :=
  match s with
  | [] => false
  | c :: r =>
      match r with
      | d :: _ => ((c =? Py.SPACE) && (d =? Py.SPACE)) || has_2sp r
      | [] => false
      end
  end.

(** Why the input table cannot be read, if it cannot: the file is missing
    or pandas rejects it. *)
Definition input_failure (E : Env) (args : Args) (w : World) : option str :=
  match fs w !! input_csv args with
  | None => Some (lit "[Errno 2] No such file or directory")
  | Some b =>
      match read_csv E b with
      | Throws msg => Some msg
      | Returns _ => None
      end
  end.

(** The text of the [print] in the handler of the loop of [main]. *)
Definition row_error_line (c : cell) (msg : str) : str :=
  lit "ERROR: " ++ cell_format c ++ [Py.SPACE; Py.LF; Py.SPACE] ++ msg.

(** [str(e)] of the [AttributeError] raised by [url.strip()]. *)
Definition no_strip_message (ty : str) : str :=
  lit "'" ++ ty ++ lit "' object has no attribute 'strip'".

End Shape.

(** * Further concrete environments *)
Module Faulty.

(** Three pages: an empty one, one whose text cannot be extracted, one with
    text. *)
Definition pdf_reader : PdfReader := {|
  numPages := Returns 3%nat;
  getPage := λ i,
    Returns {| extractText :=
      match i with
      | O => Returns []
      | S O => Throws (lit "unsupported filter")
      | _ => Returns (lit "last page")
      end |};
|}.

(** As [Demo.env], except that no file can be written and the HTML parser
    rejects every document. *)
Definition env : Env := {|
  now := now Demo.env;
  requests_get := requests_get Demo.env;
  open_wb_fault := open_wb_fault Demo.env;
  write_fault := λ _ _, Some (lit "[Errno 28] No space left on device", 1%nat);
  mkdir_fault := mkdir_fault Demo.env;
  PdfFileReader := PdfFileReader Demo.env;
  BeautifulSoup := λ _, Throws (lit "markup rejected");
  read_csv := read_csv Demo.env;
  str_columns := str_columns Demo.env;
|}.

(** As [Demo.env], except that the HTML parser rejects every document. *)
Definition env_no_parse : Env := {|
  now := now Demo.env;
  requests_get := requests_get Demo.env;
  open_wb_fault := open_wb_fault Demo.env;
  write_fault := write_fault Demo.env;
  mkdir_fault := mkdir_fault Demo.env;
  PdfFileReader := PdfFileReader Demo.env;
  BeautifulSoup := λ _, Throws (lit "markup rejected");
  read_csv := read_csv Demo.env;
  str_columns := str_columns Demo.env;
|}.

(** As [Demo.env], except that the file [two.csv] parses to a table
    without rows. *)
Definition env_no_rows : Env := {|
  now := now Demo.env;
  requests_get := requests_get Demo.env;
  open_wb_fault := open_wb_fault Demo.env;
  write_fault := write_fault Demo.env;
  mkdir_fault := mkdir_fault Demo.env;
  PdfFileReader := PdfFileReader Demo.env;
  BeautifulSoup := BeautifulSoup Demo.env;
  read_csv := λ _, Returns (Demo.link_frame []);
  str_columns := str_columns Demo.env;
|}.

(** As [Demo.env], except that every input file parses to a table of two
    URLs with the same last component. *)
Definition env_same_name : Env := {|
  now := now Demo.env;
  requests_get := requests_get Demo.env;
  open_wb_fault := open_wb_fault Demo.env;
  write_fault := write_fault Demo.env;
  mkdir_fault := mkdir_fault Demo.env;
  PdfFileReader := PdfFileReader Demo.env;
  BeautifulSoup := BeautifulSoup Demo.env;
  read_csv := λ _,
    Returns (Demo.link_frame
               [CStr (lit "https://example.com/index.html");
                CStr (lit "https://example.org/index.html?lang=en")]);
  str_columns := str_columns Demo.env;
|}.

(** As [Demo.env], except that the server answers every request with
    status 404 and an error page. *)
Definition env_404 : Env := {|
  now := now Demo.env;
  requests_get := λ _ _ _,
    Returns {| status_code := 404; content := [Byte.x34; Byte.x30; Byte.x34] |};
  open_wb_fault := open_wb_fault Demo.env;
  write_fault := write_fault Demo.env;
  mkdir_fault := mkdir_fault Demo.env;
  PdfFileReader := PdfFileReader Demo.env;
  BeautifulSoup := BeautifulSoup Demo.env;
  read_csv := read_csv Demo.env;
  str_columns := str_columns Demo.env;
|}.

(** A world in which an earlier download is stored. *)
Definition world : World := {|
  fs := {[ lit "out/files/a.html" := [Byte.x3c; Byte.x70; Byte.x3e] ]};
  dirs := ∅;
  tables := ∅;
  stdout := [];
  requests := [];
  ticks := 0;
|}.

End Faulty.

(** * Theorems *)

(** Sanity checks of the string model against CPython's answers. *)
Example splitlines_ex :
  Py.splitlines (lit "a" ++ [13; 10] ++ lit "b" ++ [10; 10] ++ lit "c" ++ [10])
  = [lit "a"; lit "b"; []; lit "c"].
Proof. reflexivity. Qed.

Example split_2sp_ex :
  Py.split_2sp (lit "a  b   c") = [lit "a"; lit "b"; lit " c"]
  ∧ Py.split_2sp (lit "a    b") = [lit "a"; []; lit "b"]
  ∧ Py.split_2sp [] = [[]].
Proof. repeat split; reflexivity. Qed.

Example sub_spaces_ex :
  Py.sub_spaces (Py.strip (lit "  a   b ")) = lit "a b".
Proof. reflexivity. Qed.

Example path_ex :
  Py.path_stem (lit "https://example.com/doc.pdf?v=2") = lit "doc"
  ∧ Py.path_suffix (lit "https://example.com/doc.pdf?v=2") = lit ".pdf?v=2"
  ∧ Py.path_suffix (lit "https://example.com/.pdf") = []
  ∧ Py.path_stem (lit "https://x/a..pdf") = lit "a."
  ∧ Py.path_suffix (lit "https://example.com/a.pdf/.") = lit ".pdf"
  ∧ Py.path_suffix (lit "https://x/a.pdf.") = [].
Proof. repeat split; vm_compute; reflexivity. Qed.

Example str_of_nat_ex : Py.ljust 10 (Py.str_of_nat 1 ++ lit "/" ++ Py.str_of_nat 3)
  = lit "1/3       ".
Proof. vm_compute. reflexivity. Qed.

(** ** Facts about the string methods *)
Section PyFacts.
Import Py.

Lemma lstrip_Forall (P : N → Prop) s : Forall P s → Forall P (lstrip s).
Proof.
  induction 1 as [|c r Hc Hr IH]; simpl; [constructor|].
  destruct (isspace c); [exact IH | by constructor].
Qed.

Lemma rstrip_Forall (P : N → Prop) s : Forall P s → Forall P (rstrip s).
Proof.
  induction 1 as [|c r Hc Hr IH]; simpl; [constructor|].
  destruct (rstrip r) as [|d r'].
  - destruct (isspace c); repeat constructor; done.
  - by constructor.
Qed.

Lemma strip_Forall (P : N → Prop) s : Forall P s → Forall P (strip s).
Proof. intros. by apply rstrip_Forall, lstrip_Forall. Qed.

Lemma lstrip_head s c r : lstrip s = c :: r → isspace c = false.
Proof.
  induction s as [|d s IH]; simpl; [done|].
  destruct (isspace d) eqn:Hd; [done|]. by intros [= -> _].
Qed.

Lemma rstrip_keeps_head c r : isspace c = false → ∃ r', rstrip (c :: r) = c :: r'.
Proof.
  intros Hc. simpl. destruct (rstrip r) as [|d r'].
  - rewrite Hc. by exists [].
  - by exists (d :: r').
Qed.

Lemma rstrip_idem s : rstrip (rstrip s) = rstrip s.
Proof.
  induction s as [|c r IH]; simpl; [done|].
  destruct (rstrip r) as [|d r'] eqn:Hr.
  - destruct (isspace c) eqn:Hc; simpl; [done|]. by rewrite Hc.
  - change (rstrip (c :: d :: r')) with
      (match rstrip (d :: r') with [] => if isspace c then [] else [c] | x => c :: x end).
    by rewrite IH.
Qed.

Lemma lstrip_fixed c r : isspace c = false → lstrip (c :: r) = c :: r.
Proof. intros Hc. simpl. by rewrite Hc. Qed.

Lemma strip_idem s : strip (strip s) = strip s.
Proof.
  unfold strip. destruct (lstrip s) as [|c r] eqn:Hs; [done|].
  apply lstrip_head in Hs.
  destruct (rstrip_keeps_head c r Hs) as [r' Hr]. rewrite Hr.
  rewrite (lstrip_fixed _ _ Hs), <- Hr. apply rstrip_idem.
Qed.

Lemma split_2sp_cons2 c d r :
  split_2sp (c :: d :: r) =
  if (c =? SPACE) && (d =? SPACE) then [] :: split_2sp r
  else match split_2sp (d :: r) with
       | l :: ls => (c :: l) :: ls
       | [] => [[c]]
       end.
Proof. reflexivity. Qed.

Lemma splitlines_cons c r :
  splitlines (c :: r) =
  if islinebreak c then
    match r with
    | d :: r' => if (c =? CR) && (d =? LF) then [] :: splitlines r'
                 else [] :: splitlines r
    | [] => [[]]
    end
  else match splitlines r with
       | [] => [[c]]
       | l :: ls => (c :: l) :: ls
       end.
Proof. reflexivity. Qed.

Lemma split_2sp_Forall (P : N → Prop) s :
  Forall P s → Forall (Forall P) (split_2sp s).
Proof.
  remember (length s) as n eqn:Hn. revert s Hn.
  induction n as [n IH] using lt_wf_ind. intros s Hn Hs.
  destruct s as [|c [|d r]].
  - repeat constructor.
  - apply Forall_cons in Hs as [Hc _]. repeat constructor; done.
  - apply Forall_cons in Hs as [Hc Hs]. rewrite split_2sp_cons2.
    assert (Hrec : Forall (Forall P) (split_2sp (d :: r))).
    { apply (IH (length (d :: r))); [subst n; simpl; lia|done|done]. }
    apply Forall_cons in Hs as [Hd Hs].
    destruct ((c =? SPACE) && (d =? SPACE)).
    + constructor; [constructor|].
      apply (IH (length r)); [subst n; simpl; lia|done|done].
    + destruct (split_2sp (d :: r)) as [|l ls].
      * repeat constructor; done.
      * apply Forall_cons in Hrec as [Hl Hls]. constructor; [by constructor|done].
Qed.

Lemma splitlines_nobreak s : Forall (Forall nobreak) (splitlines s).
Proof.
  remember (length s) as n eqn:Hn. revert s Hn.
  induction n as [n IH] using lt_wf_ind. intros s Hn.
  destruct s as [|c r]; [constructor|].
  rewrite splitlines_cons.
  destruct (islinebreak c) eqn:Hc.
  - destruct r as [|d r']; [repeat constructor|].
    destruct ((c =? CR) && (d =? LF)); (constructor; [constructor|]).
    + apply (IH (length r')); [subst n; simpl; lia|done].
    + apply (IH (length (d :: r'))); [subst n; simpl; lia|done].
  - assert (Hrec : Forall (Forall nobreak) (splitlines r)).
    { apply (IH (length r)); [subst n; simpl; lia|done]. }
    destruct (splitlines r) as [|l ls].
    + repeat constructor; done.
    + apply Forall_cons in Hrec as [Hl Hls]. constructor; [by constructor|done].
Qed.

Lemma splitlines_line l rest :
  Forall nobreak l → splitlines (l ++ LF :: rest) = l :: splitlines rest.
Proof.
  induction 1 as [|c l Hc Hl IH].
  - rewrite app_nil_l, splitlines_cons. destruct rest as [|d r]; reflexivity.
  - rewrite <- app_comm_cons, splitlines_cons, Hc, IH. reflexivity.
Qed.

Lemma splitlines_single l : l ≠ [] → Forall nobreak l → splitlines l = [l].
Proof.
  intros Hne Hl. induction Hl as [|c l Hc Hl IH]; [done|].
  simpl. rewrite Hc. destruct l as [|d l']; [done|].
  rewrite IH; done.
Qed.

Lemma splitlines_join ls :
  Forall (λ l, l ≠ [] ∧ Forall nobreak l) ls → splitlines (join [LF] ls) = ls.
Proof.
  induction 1 as [|l ls [Hne Hl] Hls IH]; [done|].
  destruct ls as [|l' ls'].
  - simpl. by apply splitlines_single.
  - change (join [LF] (l :: l' :: ls')) with (l ++ LF :: join [LF] (l' :: ls')).
    rewrite splitlines_line by done. by rewrite IH.
Qed.

(** Every chunk kept by [getTextfromHTML] is a stripped, non-empty piece of
    one line. *)
Lemma html_chunks_spec text :
  Forall (λ ch, ch ≠ [] ∧ strip ch = ch ∧ Forall nobreak ch)
         (Script.html_chunks text).
Proof.
  unfold Script.html_chunks.
  apply Forall_forall. intros ch Hch.
  apply list_elem_of_filter in Hch as [Hne Hch].
  apply list_elem_of_In, in_concat in Hch as (phrases & Hph & Hch).
  apply in_map_iff in Hph as (line & <- & Hline).
  apply list_elem_of_In, list_elem_of_fmap in Hch as (phrase & -> & Hphrase).
  apply list_elem_of_In, list_elem_of_fmap in Hline as (l & -> & Hl).
  split; [done|]. split; [apply strip_idem|].
  apply strip_Forall.
  assert (Hall : Forall (Forall nobreak) (split_2sp (strip l))).
  { apply split_2sp_Forall, strip_Forall.
    pose proof (splitlines_nobreak text) as H.
    rewrite Forall_forall in H. by apply H. }
  rewrite Forall_forall in Hall. by apply Hall.
Qed.

End PyFacts.

(** ** Facts about [pathlib] suffixes *)
Section PathFacts.
Import Py.

Lemma rfind_range c s : (-1 ≤ rfind c s < Z.of_nat (length s))%Z.
Proof.
  induction s as [|d r IH]; simpl; [lia|].
  destruct (0 <=? rfind c r)%Z eqn:Hi; [lia|].
  destruct (d =? c); lia.
Qed.

Lemma rfind_app c a b :
  rfind c (a ++ b) =
  (if 0 <=? rfind c b then Z.of_nat (length a) + rfind c b else rfind c a)%Z.
Proof.
  induction a as [|d a IH]; simpl rfind.
  - pose proof (rfind_range c b). simpl.
    destruct (0 <=? rfind c b)%Z eqn:Hb; lia.
  - rewrite IH. destruct (0 <=? rfind c b)%Z eqn:Hb.
    + pose proof (rfind_range c b).
      replace (0 <=? Z.of_nat (length a) + rfind c b)%Z with true
        by (symmetry; apply Z.leb_le; lia).
      simpl length. lia.
    + reflexivity.
Qed.

(** The suffix is [.pdf] exactly when the name is a non-empty stem followed
    by [.pdf]. *)
Lemma path_suffix_pdf s :
  path_suffix s = lit ".pdf"
  ↔ ∃ stem, stem ≠ [] ∧ path_name s = stem ++ lit ".pdf".
Proof.
  unfold path_suffix. set (name := path_name s). split.
  - destruct ((0 <? rfind DOT name) && (rfind DOT name <? Z.of_nat (length name) - 1))%Z
      eqn:Hc; [|discriminate].
    intros Hd. apply andb_prop in Hc as [H0 H1].
    apply Z.ltb_lt in H0. apply Z.ltb_lt in H1.
    exists (take (Z.to_nat (rfind DOT name)) name). split.
    + intros Ht. apply (f_equal length) in Ht.
      rewrite length_take in Ht. simpl in Ht. lia.
    + by rewrite <- Hd, take_drop.
  - intros (stem & Hne & ->).
    rewrite rfind_app. change (rfind DOT (lit ".pdf")) with 0%Z.
    change (0 <=? 0)%Z with true. cbv iota.
    rewrite length_app. change (length (lit ".pdf")) with 4%nat.
    assert (0 < length stem)%nat by (destruct stem; [done|simpl; lia]).
    replace ((0 <? Z.of_nat (length stem) + 0)
             && (Z.of_nat (length stem) + 0 <? Z.of_nat (length stem + 4) - 1))%Z
      with true by (symmetry; apply andb_true_intro; split; apply Z.ltb_lt; lia).
    replace (Z.to_nat (Z.of_nat (length stem) + 0)) with (length stem) by lia.
    by rewrite drop_app_length.
Qed.

Lemma file_ext_of_cases url :
  (file_ext_of url = lit ".pdf" ∧ path_suffix url = lit ".pdf")
  ∨ (file_ext_of url = lit ".html" ∧ path_suffix url ≠ lit ".pdf").
Proof.
  unfold file_ext_of. case_bool_decide as H; simpl; [left|right]; by rewrite ?H.
Qed.

End PathFacts.

(** ** Facts about the tree operations *)
Section DomFacts.
Import Dom.

Lemma node_ind (P : node → Prop) :
  (∀ s, P (Text s)) → (∀ s, P (Special s)) →
  (∀ nm ch, Forall P ch → P (Tag nm ch)) →
  ∀ n, P n.
Proof.
  intros HT HS HG. fix IH 1. intros [s|s|nm ch]; [apply HT|apply HS|].
  apply HG. induction ch as [|c ch IHch]; constructor; [apply IH|apply IHch].
Qed.

(** What is inside the removed tags has no part in the result. *)
Lemma decompose_blank names n : decompose names (blank names n) = decompose names n.
Proof.
  induction n as [s|s|nm ch IH] using node_ind; [done|done|].
  simpl. case_bool_decide as Hnm; simpl.
  - by rewrite bool_decide_eq_true_2.
  - rewrite bool_decide_eq_false_2 by done. do 3 f_equal.
    induction IH as [|c ch Hc _ IHch]; simpl; [done|]. by rewrite Hc, IHch.
Qed.

Lemma decompose_all_blank names soup :
  decompose_all names (map (blank names) soup) = decompose_all names soup.
Proof.
  unfold decompose_all. f_equal. rewrite map_map.
  apply map_ext. intros n. apply decompose_blank.
Qed.

Lemma decompose_no_tag names n :
  Forall (λ n', has_tag names n' = false) (decompose names n).
Proof.
  induction n as [s|s|nm ch IH] using node_ind; simpl.
  - by repeat constructor.
  - by repeat constructor.
  - case_bool_decide as Hnm; [constructor|]. repeat constructor.
    simpl. rewrite bool_decide_eq_false_2 by done. simpl.
    apply not_true_is_false. intros Hex.
    apply existsb_exists in Hex as (n' & Hin & Hn').
    apply in_concat in Hin as (l & Hl & Hin).
    apply in_map_iff in Hl as (c & <- & Hc).
    rewrite Forall_forall in IH. specialize (IH c).
    rewrite list_elem_of_In in IH. specialize (IH Hc).
    rewrite Forall_forall in IH. specialize (IH n').
    rewrite list_elem_of_In in IH. specialize (IH Hin). congruence.
Qed.

Lemma decompose_all_no_tag names soup :
  Forall (λ n, has_tag names n = false) (decompose_all names soup).
Proof.
  unfold decompose_all. induction soup as [|n soup IH]; simpl; [constructor|].
  apply Forall_app. split; [apply decompose_no_tag|exact IH].
Qed.

End DomFacts.

(** ** Running the monad *)

Import Outcome.

Ltac munfold :=
  unfold mbind, M_bind, mret, M_ret, try_except, call, raise, exit, print,
    dt_now, open_rb, open_wb, file_write, os_path_isdir, os_mkdir, http_get,
    pd_read_csv, to_csv in *.

Lemma only_prints_refl w : only_prints w w.
Proof. by repeat split. Qed.

Lemma only_prints_trans w1 w2 w3 :
  only_prints w1 w2 → only_prints w2 w3 → only_prints w1 w3.
Proof.
  intros (?&?&?&?&?&?) (?&?&?&?&?&?).
  repeat split; try congruence. by etrans.
Qed.

Lemma only_prints_print line w :
  only_prints w (set_stdout (λ o, o ++ [line]) w).
Proof. repeat split. simpl. by apply prefix_app_r. Qed.

Create HintDb world.
#[local] Hint Resolve only_prints_refl only_prints_print : world.

Section ExtractionFacts.
Context (E : Env).

(** The page loop prints at most; it fails exactly when a [getPage] does. *)
Lemma pdf_pages_spec rd remaining counter text w :
  ∃ w', only_prints w w' ∧
    match page_error rd remaining counter with
    | None => ∃ t, pdf_pages rd remaining counter text w = (Ok t, w')
    | Some msg => pdf_pages rd remaining counter text w = (Raise (Exception msg), w')
    end.
Proof.
  revert counter text w.
  induction remaining as [|k IH]; intros counter text w; cbn.
  - exists w. split; [auto with world|]. by exists text.
  - munfold. destruct (getPage rd counter) as [page|msg]; cbn.
    + destruct (extractText page) as [t|msg]; case_bool_decide; munfold; cbn.
      all: match goal with
           | |- context [pdf_pages _ _ ?c ?a ?w1] =>
               destruct (IH c a w1) as (w' & Hp & Hrun);
               exists w'; split; [|exact Hrun];
               refine (only_prints_trans _ w1 _ _ Hp); auto with world
           end.
    + exists w. split; [auto with world|done].
Qed.

Lemma pdfToText_missing path w :
  fs w !! path = None →
  pdfToText E path w
  = (Raise (Exception (lit "[Errno 2] No such file or directory")), w).
Proof. intros Hfs. unfold pdfToText. munfold. by rewrite Hfs. Qed.

(** Once the file is open, [pdfToText] prints at most and does not raise:
    it evaluates to [""] after a failure of the reader and to [None]
    otherwise. *)
Lemma pdfToText_readable path b w :
  fs w !! path = Some b →
  ∃ w', only_prints w w' ∧
    match pdf_error E b with
    | Some msg =>
        pdfToText E path w = (Ok (VStr []), w')
        ∧ last (stdout w') = Some (pdf_failed_line msg)
    | None => pdfToText E path w = (Ok VNone, w')
    end.
Proof.
  intros Hfs. unfold pdfToText, pdf_error, pdf_failed_line. munfold.
  rewrite Hfs. cbn.
  destruct (PdfFileReader E b) as [rd|msg]; cbn.
  2: { eexists. split; [apply only_prints_print|].
       split; [done|]. cbn. by rewrite last_snoc. }
  destruct (numPages rd) as [n|msg]; cbn.
  2: { eexists. split; [apply only_prints_print|].
       split; [done|]. cbn. by rewrite last_snoc. }
  match goal with
  | |- context [pdf_pages _ _ _ _ ?w1] =>
      destruct (pdf_pages_spec rd n 0 [] w1) as (w2 & Hp & Hrun);
      assert (Hw1 : only_prints w w1) by apply only_prints_print
  end.
  destruct (page_error rd n 0) as [msg|].
  - rewrite Hrun. eexists. split.
    + eapply only_prints_trans; [exact Hw1|].
      eapply only_prints_trans; [exact Hp|apply only_prints_print].
    + split; [done|]. cbn. by rewrite last_snoc.
  - destruct Hrun as [t Hrun]. rewrite Hrun. exists w2. split; [|done].
    by eapply only_prints_trans.
Qed.

Lemma getTextfromHTML_run html w :
  getTextfromHTML E html w =
  match BeautifulSoup E html with
  | Returns soup =>
      (Ok (Py.join [Py.LF]
             (html_chunks (Dom.get_text
                (Dom.decompose_all killed_tags soup)))), w)
  | Throws msg => (Raise (Exception msg), w)
  end.
Proof. unfold getTextfromHTML. munfold. by destruct (BeautifulSoup E html). Qed.

Lemma getTextFromFile_pdf path w :
  getTextFromFile E path (lit ".pdf") w = pdfToText E path w.
Proof. unfold getTextFromFile. by rewrite bool_decide_eq_true_2. Qed.

Lemma getTextFromFile_other path ext w :
  ext ≠ lit ".pdf" →
  getTextFromFile E path ext w =
  match fs w !! path with
  | Some b =>
      match BeautifulSoup E b with
      | Returns soup =>
          (Ok (VStr (Py.join [Py.LF]
             (html_chunks (Dom.get_text
                (Dom.decompose_all killed_tags soup))))), w)
      | Throws msg => (Raise (Exception msg), w)
      end
  | None => (Raise (Exception (lit "[Errno 2] No such file or directory")), w)
  end.
Proof.
  intros Hext. unfold getTextFromFile. rewrite bool_decide_eq_false_2 by done.
  munfold. destruct (fs w !! path) as [b|]; [|done].
  pose proof (getTextfromHTML_run b w) as Hrun. munfold.
  rewrite Hrun. by destruct (BeautifulSoup E b).
Qed.

End ExtractionFacts.

(** ** C1: what [pdfToText] returns for a readable PDF *)

(** C1 (code defect). The claim promises, for a PDF whose pages are read
    successfully, the cleaned concatenation of the page texts as a string.
    The function computes that text in its local variable and then ends
    without a [return] statement: for every file that opens and whose reader,
    page count and pages are obtained without error, the call evaluates to
    [None], having printed at most. *)
Theorem pdfToText_returns_None (E : Env) (path : str) (b : bytes) (w : World) :
  fs w !! path = Some b →
  pdf_error E b = None →
  ∃ w', pdfToText E path w = (Ok VNone, w') ∧ only_prints w w'.
Proof.
  intros Hfs Herr.
  destruct (pdfToText_readable E path b w Hfs) as (w' & Hp & Hrun).
  rewrite Herr in Hrun. by exists w'.
Qed.

Lemma pdfToText_returns_None_witness :
  ∃ w', pdfToText Demo.env (lit "some.pdf") Demo.world = (Ok VNone, w')
        ∧ only_prints Demo.world w'.
Proof.
  apply (pdfToText_returns_None Demo.env (lit "some.pdf") [Byte.x25] Demo.world).
  - vm_compute. reflexivity.
  - vm_compute. reflexivity.
Defined.

(** The text the clean-up computes for the pages of the example, which the
    caller never receives. *)
Example pdf_cleanup_ex :
  Script.pdf_cleanup
    (lit "Hello, world" ++ [Py.LF] ++ lit "again" ++ [Py.LF] ++ lit " second   page ")
  = lit "Hello world again second page".
Proof. vm_compute. reflexivity. Qed.

(** ** C2: which failures of text extraction reach the caller *)

(** C2 (counterexample). Extraction does raise: for a path with no file
    behind it and the extension [.html], [getTextFromFile] passes the error
    of [open] on to its caller. *)
Lemma getTextFromFile_raises_on_missing_file :
  ∃ msg, getTextFromFile Demo.env (lit "out/files/absent.html") (lit ".html") Demo.world
         = (Raise (Exception msg), Demo.world).
Proof. eexists. vm_compute. reflexivity. Qed.

(** C2 (amended). For a file that can be opened: with the extension [.pdf],
    extraction does not raise and changes nothing but standard output, and
    when PyPDF2 fails on the file (in the reader, the page count or a
    [getPage]) the last line it prints is [PDF Text Extract Failed - error. ]
    followed by the exception, and it returns the empty string; with the
    extension [.html] there is no handler: when the parser raises, the
    exception is raised to the caller, and otherwise the text is returned
    and the world is left as it was. *)
Theorem getTextFromFile_on_readable_file (E : Env) (path : str) (b : bytes)
    (w : World) :
  fs w !! path = Some b →
  (∃ v w',
     getTextFromFile E path (lit ".pdf") w = (Ok v, w')
     ∧ only_prints w w'
     ∧ match pdf_error E b with
       | Some msg =>
           v = VStr []
           ∧ last (stdout w') = Some (lit "PDF Text Extract Failed - error. " ++ msg)
       | None => True
       end)
  ∧ getTextFromFile E path (lit ".html") w
    = match BeautifulSoup E b with
      | Returns soup =>
          (Ok (VStr (Py.join [Py.LF]
             (html_chunks (Dom.get_text
                (Dom.decompose_all [lit "script"; lit "style"] soup))))), w)
      | Throws msg => (Raise (Exception msg), w)
      end.
Proof.
  intros Hfs. split.
  - rewrite getTextFromFile_pdf.
    destruct (pdfToText_readable E path b w Hfs) as (w' & Hp & Hrun).
    destruct (pdf_error E b) as [msg|].
    + destruct Hrun as [Hrun Hlast]. by exists (VStr []), w'.
    + by exists VNone, w'.
  - rewrite getTextFromFile_other, Hfs; [done|].
    vm_compute. discriminate.
Qed.

Lemma getTextFromFile_on_readable_file_witness :
  (∃ v w',
     getTextFromFile Demo.env (lit "empty.pdf") (lit ".pdf") Demo.world = (Ok v, w')
     ∧ only_prints Demo.world w'
     ∧ v = VStr []
     ∧ last (stdout w')
       = Some (lit "PDF Text Extract Failed - error. Cannot read an empty file"))
  ∧ getTextFromFile Demo.env (lit "empty.pdf") (lit ".html") Demo.world
    = (Ok (VStr (lit "Title" ++ [Py.LF] ++ lit "Subtitle" ++ [Py.LF]
                   ++ lit "Some text.")), Demo.world).
Proof.
  destruct (getTextFromFile_on_readable_file Demo.env (lit "empty.pdf") []
              Demo.world) as [(v & w' & Hrun & Hp & Hcase) Hhtml].
  - vm_compute. reflexivity.
  - split.
    + exists v, w'. split; [exact Hrun|]. split; [exact Hp|].
      assert (Herr : pdf_error Demo.env []
                     = Some (lit "Cannot read an empty file")) by reflexivity.
      rewrite Herr in Hcase. destruct Hcase as [Hv Hlast].
      split; [exact Hv|]. rewrite Hlast. vm_compute. reflexivity.
    + rewrite Hhtml. vm_compute. reflexivity.
Defined.

(** ** C8: the text extracted from HTML *)

(** C8. When the parser returns a tree, [getTextfromHTML] returns, without
    touching the world, the newline-join of the non-empty chunks obtained
    from the text of the tree without its script and style elements: the
    lines stripped, cut at double spaces, the pieces stripped. No script or
    style tag is left in the tree the text is taken from, and a document
    that differs only inside such elements gives the same text. The lines
    of the result are exactly the chunks, so none of them is empty or has
    surrounding white space. *)
Theorem getTextfromHTML_clean (E : Env) (html : bytes) (soup : list Dom.node)
    (w : World) :
  BeautifulSoup E html = Returns soup →
  let visible := Dom.decompose_all [lit "script"; lit "style"] soup in
  let chunks :=
    filter (λ chunk, chunk ≠ [])
      (concat (map (λ line, Py.strip <$> Py.split_2sp (Py.strip line))
                   (Py.splitlines (Dom.get_text visible)))) in
  getTextfromHTML E html w = (Ok (Py.join [Py.LF] chunks), w)
  ∧ Forall (λ n, Dom.has_tag [lit "script"; lit "style"] n = false) visible
  ∧ (∀ html' soup',
       BeautifulSoup E html' = Returns soup' →
       map (Dom.blank [lit "script"; lit "style"]) soup'
       = map (Dom.blank [lit "script"; lit "style"]) soup →
       getTextfromHTML E html' w = (Ok (Py.join [Py.LF] chunks), w))
  ∧ Py.splitlines (Py.join [Py.LF] chunks) = chunks
  ∧ Forall (λ line, line ≠ [] ∧ Py.strip line = line)
           (Py.splitlines (Py.join [Py.LF] chunks)).
Proof.
  intros Hsoup visible chunks.
  assert (Hchunks : chunks = html_chunks (Dom.get_text visible)).
  { unfold chunks, html_chunks. do 2 f_equal.
    generalize (Py.splitlines (Dom.get_text visible)).
    intros ls. induction ls as [|l ls IH]; [done|]. cbn. by rewrite IH. }
  pose proof (html_chunks_spec (Dom.get_text visible)) as Hspec.
  rewrite <- Hchunks in Hspec.
  assert (Hlines : Py.splitlines (Py.join [Py.LF] chunks) = chunks).
  { apply splitlines_join. eapply Forall_impl; [exact Hspec|].
    intros ch (?&?&?). done. }
  split; [|split; [|split; [|split]]].
  - rewrite getTextfromHTML_run, Hsoup, Hchunks. reflexivity.
  - apply decompose_all_no_tag.
  - intros html' soup' Hsoup' Hblank.
    rewrite getTextfromHTML_run, Hsoup', Hchunks. unfold visible, killed_tags.
    by rewrite <- (decompose_all_blank _ soup'), Hblank, decompose_all_blank.
  - exact Hlines.
  - rewrite Hlines. eapply Forall_impl; [exact Hspec|].
    intros ch (?&?&?). done.
Qed.

Lemma getTextfromHTML_clean_witness :
  getTextfromHTML Demo.env [] Demo.world
  = (Ok (lit "Title" ++ [Py.LF] ++ lit "Subtitle" ++ [Py.LF] ++ lit "Some text."),
     Demo.world).
Proof.
  destruct (getTextfromHTML_clean Demo.env [] Demo.html_soup Demo.world)
    as [Hrun _]; [reflexivity|].
  rewrite Hrun. vm_compute. reflexivity.
Defined.

(** ** C3: the outcome of [getUrl] *)
Section FetchFacts.
Context (E : Env).

Lemma getUrl_run url fileOut w :
  getUrl E url fileOut w =
  let w1 := set_requests (λ l, l ++ [url]) w in
  let fail msg w' :=
    (Ok false, set_stdout (λ o, o ++ [fetch_failed_line msg]) w') in
  match requests_get E (length (requests w)) url fetch_headers with
  | Throws msg => fail msg w1
  | Returns resp =>
      match open_wb_fault E fileOut with
      | Some msg => fail msg w1
      | None =>
          match write_fault E fileOut (content resp) with
          | Some (msg, n) =>
              fail msg (set_fs (insert fileOut (take n (content resp)))
                          (set_fs (insert fileOut []) w1))
          | None =>
              (Ok true,
               set_fs (insert fileOut (content resp)) (set_fs (insert fileOut []) w1))
          end
      end
  end.
Proof.
  unfold getUrl. munfold. cbn.
  destruct (requests_get E (length (requests w)) url fetch_headers) as [resp|msg];
    cbn; [|done].
  destruct (open_wb_fault E fileOut) as [msg|]; cbn; [done|].
  by destruct (write_fault E fileOut (content resp)) as [[msg n]|].
Qed.

Lemma fetched_failure k url path :
  match fetched E k url path with
  | Some resp =>
      fetch_failure E k url path = None
      ∧ requests_get E k url fetch_headers = Returns resp
  | None => is_Some (fetch_failure E k url path)
  end.
Proof.
  unfold fetched, fetch_failure.
  destruct (requests_get E k url fetch_headers) as [resp|msg]; [|by eexists].
  destruct (open_wb_fault E path) as [msg|]; [by eexists|].
  destruct (write_fault E path (content resp)) as [msg|]; [by eexists|done].
Qed.

End FetchFacts.

(** C3 (counterexample). A response with an HTTP error status is no
    failure for [getUrl]: the status of the response is never read, so for a
    server that answers 404 the error page is stored at the destination and
    [True] is returned, nothing being printed. *)
Lemma http_error_response_is_stored :
  ∃ resp w',
    requests_get Faulty.env_404 0 Demo.url_a fetch_headers = Returns resp
    ∧ Spec.http_error resp = true
    ∧ getUrl Faulty.env_404 Demo.url_a (lit "out/files/a.html") Demo.world
      = (Ok true, w')
    ∧ fs w' !! lit "out/files/a.html" = Some (content resp)
    ∧ stdout w' = [].
Proof.
  eexists _, _. split; [reflexivity|]. split; [reflexivity|].
  split; [vm_compute; reflexivity|]. split; vm_compute; reflexivity.
Qed.

(** C3 (amended). [getUrl] never raises and sends exactly one request.
    Whenever the request, the opening of the destination or the writing
    raises an exception, it prints [>>>Exception in getting the URL:]
    followed by the exception and returns [False]; it returns [True] only
    when none of them raised, and then the destination holds the bytes of
    the response body and nothing was printed, whatever the HTTP status of
    the response. *)
Theorem getUrl_fails_or_writes (E : Env) (url fileOut : str) (w : World) :
  ∃ ok w',
    getUrl E url fileOut w = (Ok ok, w')
    ∧ requests w' = requests w ++ [url]
    ∧ match fetch_failure E (length (requests w)) url fileOut with
      | Some msg =>
          ok = false
          ∧ stdout w' = stdout w ++ [lit ">>>Exception in getting the URL:" ++ msg]
      | None =>
          ok = true ∧ stdout w' = stdout w
          ∧ ∃ resp,
              requests_get E (length (requests w)) url fetch_headers = Returns resp
              ∧ fs w' !! fileOut = Some (content resp)
      end
    ∧ (∀ resp,
         requests_get E (length (requests w)) url fetch_headers = Returns resp →
         open_wb_fault E fileOut = None →
         write_fault E fileOut (content resp) = None →
         ok = true ∧ fs w' !! fileOut = Some (content resp)).
Proof.
  rewrite getUrl_run. unfold fetch_failure. cbv zeta.
  destruct (requests_get E (length (requests w)) url fetch_headers) as [resp|msg].
  2: { eexists _, _. split; [done|]. split; [done|]. by split. }
  destruct (open_wb_fault E fileOut) as [msg|].
  { eexists _, _. split; [done|]. split; [done|]. by split. }
  destruct (write_fault E fileOut (content resp)) as [[msg n]|] eqn:Hwrite.
  { eexists _, _. split; [done|]. split; [done|]. split; [done|].
    intros resp' [= <-] _ Hnone. congruence. }
  eexists _, _. split; [done|]. split; [done|]. split.
  - split; [done|]. split; [done|].
    exists resp. split; [done|]. cbn. apply lookup_insert_eq.
  - intros resp' [= <-] _ _. split; [done|]. cbn. apply lookup_insert_eq.
Qed.

Lemma getUrl_fails_or_writes_witness :
  ∃ ok w',
    getUrl Demo.env Demo.url_down (lit "out/files/index.html") Demo.world = (Ok ok, w')
    ∧ ok = false
    ∧ requests w' = [Demo.url_down]
    ∧ stdout w' = [lit ">>>Exception in getting the URL:Connection refused"]
    ∧ fs w' !! lit "out/files/index.html" = None.
Proof.
  destruct (getUrl_fails_or_writes Demo.env Demo.url_down
              (lit "out/files/index.html") Demo.world)
    as (ok & w' & Hrun & Hreq & Hcase & _).
  exists ok, w'. split; [exact Hrun|].
  assert (Hw : w' = snd (getUrl Demo.env Demo.url_down
                           (lit "out/files/index.html") Demo.world))
    by (by rewrite Hrun).
  assert (Hf : fetch_failure Demo.env (length (requests Demo.world)) Demo.url_down
                 (lit "out/files/index.html") = Some (lit "Connection refused"))
    by (vm_compute; reflexivity).
  rewrite Hf in Hcase. destruct Hcase as [Hok Hout].
  split; [exact Hok|]. split; [exact Hreq|]. split; [exact Hout|].
  rewrite Hw. vm_compute. reflexivity.
Defined.

(** ** One URL, one row, the loop *)
Section BatchFacts.
Context (E : Env).

(** Extraction right after a successful fetch: the file is there. *)
Lemma getTextFromFile_stored path ext resp w :
  fs w !! path = Some (content resp) →
  ext = lit ".pdf" ∨ ext = lit ".html" →
  ∃ w', only_prints w w' ∧
    if extracted E ext resp
    then ∃ v, getTextFromFile E path ext w = (Ok v, w')
    else ∃ msg, getTextFromFile E path ext w = (Raise (Exception msg), w').
Proof.
  intros Hfs [-> | ->]; unfold extracted.
  - rewrite bool_decide_eq_true_2 by done. cbn.
    rewrite getTextFromFile_pdf.
    destruct (pdfToText_readable E path _ w Hfs) as (w' & Hp & Hrun).
    exists w'. split; [done|].
    destruct (pdf_error E (content resp)); [destruct Hrun|]; by eexists.
  - assert (Hne : lit ".html" ≠ lit ".pdf") by (vm_compute; discriminate).
    rewrite bool_decide_eq_false_2 by done. cbn.
    rewrite getTextFromFile_other, Hfs by done.
    exists w. split; [apply only_prints_refl|].
    destruct (BeautifulSoup E (content resp)); by eexists.
Qed.

Lemma processURL_other ty printed dir w :
  ∃ msg, processURL E (COther ty printed) dir w = (Raise (Exception msg), w).
Proof. by eexists. Qed.

Lemma processURL_run s dir w :
  processURL E (CStr s) dir w =
  let url := Py.strip s in
  let path := Py.os_path_join dir (file_name_of url ++ file_ext_of url) in
  match getUrl E url path w with
  | (Ok true, w1) =>
      match getTextFromFile E path (file_ext_of url) w1 with
      | (Ok text, w2) =>
          (Ok (Some {| d_name := file_name_of url; d_ext := file_ext_of url;
                       d_url := url; d_text := text |}), w2)
      | (Raise e, w2) => (Raise e, w2)
      end
  | (Ok false, w1) =>
      (Ok None,
       set_stdout (λ o, o ++ [lit "ERROR Processing: " ++ file_name_of url]) w1)
  | (Raise e, w1) => (Raise e, w1)
  end.
Proof.
  unfold processURL, cell_strip. munfold. cbn.
  destruct (getUrl E _ _ w) as [[[|]|e] w1]; cbn; [|done|done].
  by destruct (getTextFromFile E _ _ w1) as [[text|e] w2].
Qed.

(** [processURL] on a [str]: one request; a record exactly when the fetch
    and the extraction go through. *)
Lemma processURL_str s dir w :
  let url := Py.strip s in
  ∃ w',
    requests w' = requests w ++ [url]
    ∧ ticks w' = ticks w ∧ tables w' = tables w ∧ dirs w' = dirs w
    ∧ stdout w `prefix_of` stdout w'
    ∧ fs w' = row_store E (length (requests w)) dir (CStr s) (fs w)
    ∧ match row_result E (length (requests w)) dir (CStr s) with
      | Some key =>
          ∃ v,
            processURL E (CStr s) dir w
            = (Ok (Some {| d_name := file_name_of url; d_ext := file_ext_of url;
                           d_url := url; d_text := v |}), w')
            ∧ key = (file_name_of url, file_ext_of url, url)
      | None =>
          processURL E (CStr s) dir w = (Ok None, w')
          ∨ ∃ msg, processURL E (CStr s) dir w = (Raise (Exception msg), w')
      end.
Proof.
  intros url. unfold row_result, row_store. fold url.
  set (path := Py.os_path_join dir (file_name_of url ++ file_ext_of url)).
  rewrite processURL_run. cbv zeta. fold url. fold path.
  rewrite getUrl_run. cbv zeta. unfold fetched.
  assert (Hpre : ∀ l1 l2 : list str, stdout w `prefix_of` (stdout w ++ l1) ++ l2).
  { intros. rewrite <- app_assoc. by apply prefix_app_r. }
  destruct (requests_get E (length (requests w)) url fetch_headers) as [resp|msg].
  2: { eexists. split_and!. 7: by left. all: cbn; try done; apply Hpre. }
  destruct (open_wb_fault E path) as [msg|].
  { eexists. split_and!. 7: by left. all: cbn; try done; apply Hpre. }
  destruct (write_fault E path (content resp)) as [[msg n]|].
  { eexists. split_and!. 7: by left.
    all: cbn; try done; try apply Hpre. by rewrite insert_insert_eq. }
  match goal with
  | |- context [getTextFromFile E path _ ?w1] =>
      destruct (getTextFromFile_stored path (file_ext_of url) resp w1)
        as (w' & (Hfs & Hdirs & Htab & Hreq & Hticks & Hout) & Hrun)
  end.
  { cbn. apply lookup_insert_eq. }
  { destruct (file_ext_of_cases url) as [[-> _]|[-> _]]; auto. }
  exists w'. cbn in Hfs, Hdirs, Htab, Hreq, Hticks, Hout.
  split; [done|]. split; [done|]. split; [done|]. split; [done|]. split; [done|].
  split; [by rewrite Hfs, insert_insert_eq|].
  destruct (extracted E (file_ext_of url) resp).
  - destruct Hrun as [v Hrun]. exists v. by rewrite Hrun.
  - destruct Hrun as [msg Hrun]. right. exists msg. by rewrite Hrun.
Qed.

Lemma process_row_run df col dir url_count ind row sofar w :
  col ∈ df_columns df →
  process_row E df col dir url_count ind row sofar w =
  let c := row col in
  let w1 :=
    set_stdout (λ o, o ++ [progress_line (now E (ticks w)) ind url_count c])
      (set_ticks S w) in
  match processURL E c dir w1 with
  | (Ok (Some d), w2) => (Ok (sofar ++ [d]), w2)
  | (Ok None, w2) => (Ok sofar, w2)
  | (Raise (Exception msg), w2) =>
      (Ok sofar,
       set_stdout
         (λ o, o ++ [lit "ERROR: " ++ cell_format c
                       ++ [Py.SPACE; Py.LF; Py.SPACE] ++ msg]) w2)
  | (Raise (SystemExit code), w2) => (Raise (SystemExit code), w2)
  end.
Proof.
  intros Hcol. unfold process_row, series_get.
  rewrite bool_decide_eq_true_2 by done. munfold. cbn.
  by destruct (processURL E _ _ _) as [[[d|]|[msg|code]] w2].
Qed.

(** One turn of the loop never raises and advances the clock by one. *)
Lemma process_row_spec df col dir url_count ind row sofar w :
  col ∈ df_columns df →
  let c := row col in
  ∃ w',
    requests w' = requests w ++ cell_requests c
    ∧ ticks w' = S (ticks w) ∧ tables w' = tables w ∧ dirs w' = dirs w
    ∧ (∃ rest, stdout w'
         = stdout w ++ progress_line (now E (ticks w)) ind url_count c :: rest)
    ∧ fs w' = row_store E (length (requests w)) dir c (fs w)
    ∧ match row_result E (length (requests w)) dir c with
      | Some key =>
          ∃ d,
            process_row E df col dir url_count ind row sofar w
            = (Ok (sofar ++ [d]), w')
            ∧ doc_key d = key
      | None =>
          process_row E df col dir url_count ind row sofar w = (Ok sofar, w')
      end.
Proof.
  intros Hcol c. rewrite process_row_run by done. cbv zeta. fold c.
  set (w1 := set_stdout _ (set_ticks S w)).
  destruct c as [s|ty printed].
  - destruct (processURL_str s dir w1)
      as (w' & Hreq & Hticks & Htab & Hdirs & [rest Hout] & Hfs & Hrun).
    change (length (requests w1)) with (length (requests w)) in Hrun, Hfs.
    cbn in Hreq, Hticks, Htab, Hdirs, Hout, Hfs.
    destruct (row_result E (length (requests w)) dir (CStr s)) as [key|].
    + destruct Hrun as (v & Hrun & ->).
      exists w'. split; [done|]. split; [done|]. split; [done|]. split; [done|].
      split; [exists rest; by rewrite Hout, <- app_assoc|]. split; [done|].
      eexists. rewrite Hrun. done.
    + destruct Hrun as [Hrun | [msg Hrun]].
      * exists w'. split; [done|]. split; [done|]. split; [done|]. split; [done|].
        split; [exists rest; by rewrite Hout, <- app_assoc|]. split; [done|].
        by rewrite Hrun.
      * rewrite Hrun. eexists. split_and!. 7: reflexivity.
        all: cbn; try done.
        eexists. rewrite Hout, <- !app_assoc. reflexivity.
  - destruct (processURL_other ty printed dir w1) as [msg Hrun]. rewrite Hrun.
    eexists. split_and!. 7: reflexivity.
    all: cbn; try done.
    + by rewrite app_nil_r.
    + eexists. rewrite <- !app_assoc. reflexivity.
Qed.

(** The loop never raises; its records are those of the rows that go
    through, in row order; every row is announced and requested. *)
Lemma main_loop_spec df col dir url_count rows :
  col ∈ df_columns df →
  ∀ ind sofar w,
  ∃ docs w',
    main_loop E df col dir url_count ind rows sofar w = (Ok (sofar ++ docs), w')
    ∧ doc_key <$> docs
      = omap id (batch_results E (length (requests w)) dir ((λ r, r col) <$> rows))
    ∧ requests w' = requests w ++ concat (cell_requests <$> ((λ r, r col) <$> rows))
    ∧ fs w' = batch_store E (length (requests w)) dir ((λ r, r col) <$> rows) (fs w)
    ∧ ticks w' = (ticks w + length rows)%nat
    ∧ tables w' = tables w ∧ dirs w' = dirs w
    ∧ stdout w `prefix_of` stdout w'
    ∧ (∀ i row, rows !! i = Some row →
         progress_line (now E (ticks w + i)%nat) (ind + i) url_count (row col)
         ∈ stdout w').
Proof.
  intros Hcol. induction rows as [|row rows IH]; intros ind sofar w.
  - exists [], w. rewrite app_nil_r. cbn. rewrite app_nil_r.
    split_and!; try done; lia.
  - cbn [main_loop]. unfold mbind at 1, M_bind at 1.
    destruct (process_row_spec df col dir url_count ind row sofar w Hcol)
      as (w1 & Hreq1 & Hticks1 & Htab1 & Hdirs1 & [rest Hout1] & Hfs1 & Hrun1).
    assert (Hlen : length (requests w1)
                   = (length (requests w) + length (cell_requests (row col)))%nat)
      by (by rewrite Hreq1, length_app).
    assert (Hstep : ∃ sofar1 new,
      process_row E df col dir url_count ind row sofar w = (Ok sofar1, w1)
      ∧ sofar1 = sofar ++ new
      ∧ doc_key <$> new
        = omap id [row_result E (length (requests w)) dir (row col)]).
    { destruct (row_result E (length (requests w)) dir (row col)) as [key|].
      - destruct Hrun1 as (d & Hrun1 & Hkey).
        exists (sofar ++ [d]), [d]. cbn. by rewrite Hkey.
      - exists sofar, []. by rewrite app_nil_r. }
    destruct Hstep as (sofar1 & new & Hrun & -> & Hnew). rewrite Hrun.
    destruct (IH (ind + 1)%nat (sofar ++ new) w1)
      as (docs & w' & Hloop & Hkeys & Hreq & Hfs & Hticks & Htab & Hdirs & Hout
          & Hprog).
    exists (new ++ docs), w'. rewrite Hloop, app_assoc.
    split; [done|]. split.
    { rewrite fmap_app, Hnew, Hkeys, Hlen. cbn.
      by destruct (row_result E (length (requests w)) dir (row col)). }
    split. { rewrite Hreq, Hreq1. cbn. by rewrite app_assoc. }
    split. { rewrite Hfs, Hfs1, Hlen. reflexivity. }
    split. { rewrite Hticks, Hticks1. cbn. lia. }
    split; [congruence|]. split; [congruence|].
    split. { etrans; [|exact Hout]. rewrite Hout1. by apply prefix_app_r. }
    intros [|i] row' Hrow; cbn in Hrow.
    + injection Hrow as <-. rewrite !Nat.add_0_r.
      destruct Hout as [more ->]. rewrite Hout1.
      apply elem_of_app. left. apply elem_of_app. right. by left.
    + specialize (Hprog i row' Hrow).
      replace (ticks w + S i)%nat with (ticks w1 + i)%nat by lia.
      by replace (ind + S i)%nat with (ind + 1 + i)%nat by lia.
Qed.

Lemma main_setup_spec args w df :
  setup_ok E args w df →
  ∃ w1,
    main_setup E args w = (Ok df, w1)
    ∧ fs w1 = fs w ∧ requests w1 = requests w ∧ tables w1 = tables w
    ∧ ticks w1 = (ticks w + 2)%nat
    ∧ stdout w1
      = stdout w
        ++ [now E (ticks w) ++ lit " | Output File Directory: "
              ++ files_dir (output_directory args);
            now E (S (ticks w)) ++ lit " | Output Content CSV: "
              ++ content_csv_path (output_directory args)].
Proof.
  intros (Hout & Hfiles & b & Hb & Hdf).
  unfold main_setup. munfold. cbn.
  assert (Hread : ∀ w0, fs w0 = fs w →
            (open_rb (input_csv args) ≫= λ b0, call (read_csv E b0)) w0 = (Ok df, w0)).
  { intros w0 Hw0. munfold. by rewrite Hw0, Hb, Hdf. }
  case_bool_decide as Hin1; cbn.
  - case_bool_decide as Hin2; cbn.
    + rewrite Hread by done. eexists. split; [reflexivity|]. cbn.
      split_and!; try done; try lia. by rewrite <- app_assoc.
    + destruct Hfiles as [Hd | ->]; [done|]. cbn.
      rewrite Hread by done. eexists. split; [reflexivity|]. cbn.
      split_and!; try done; try lia. by rewrite <- app_assoc.
  - destruct Hout as [? | ->]; [done|]. cbn.
    case_bool_decide as Hin2; cbn.
    + rewrite Hread by done. eexists. split; [reflexivity|]. cbn.
      split_and!; try done; try lia. by rewrite <- app_assoc.
    + destruct Hfiles as [Hd | ->]; [exfalso; apply Hin2; set_solver|]. cbn.
      rewrite Hread by done. eexists. split; [reflexivity|]. cbn.
      split_and!; try done; try lia. by rewrite <- app_assoc.
Qed.

Lemma main_process_present args df w :
  url_field args ∈ df_columns df →
  main_process E args df w =
  let url_count := (length (df_rows df) + 1)%nat in
  let w1 := set_stdout (λ o, o ++ [found_line (now E (ticks w)) url_count])
              (set_ticks S w) in
  match main_loop E df (url_field args) (files_dir (output_directory args))
          url_count 0 (df_rows df) [] w1 with
  | (Ok docs, w2) => to_csv E (content_csv_path (output_directory args)) docs w2
  | (Raise e, w2) => (Raise e, w2)
  end.
Proof.
  intros Hcol. unfold main_process. rewrite bool_decide_eq_true_2 by done.
  reflexivity.
Qed.

Lemma main_process_absent args df w :
  url_field args ∉ df_columns df →
  main_process E args df w =
  (Raise (SystemExit 0),
   set_stdout
     (λ o, o ++ [not_found_line E (now E (ticks w)) (url_field args) (df_columns df);
                 lit "EXITING..."])
     (set_ticks S w)).
Proof.
  intros Hcol. unfold main_process. rewrite bool_decide_eq_false_2 by done.
  munfold. cbn. unfold set_stdout, set_ticks. cbn. by rewrite <- app_assoc.
Qed.

Lemma main_run args w df w1 :
  main_setup E args w = (Ok df, w1) →
  main E args w = main_process E args df w1.
Proof. intros Hrun. unfold main. munfold. by rewrite Hrun. Qed.

(** The whole run when the URL column is there: everything up to the
    writing of the table. *)
Lemma main_present args w df :
  setup_ok E args w df →
  url_field args ∈ df_columns df →
  let n := length (df_rows df) in
  let dir := files_dir (output_directory args) in
  let cells := url_cells args df in
  ∃ docs w2,
    main E args w = to_csv E (content_csv_path (output_directory args)) docs w2
    ∧ doc_key <$> docs = omap id (batch_results E (length (requests w)) dir cells)
    ∧ requests w2 = requests w ++ concat (cell_requests <$> cells)
    ∧ fs w2 = batch_store E (length (requests w)) dir cells (fs w)
    ∧ tables w2 = tables w
    ∧ found_line (now E (ticks w + 2)%nat) (n + 1) ∈ stdout w2
    ∧ (∀ i row, df_rows df !! i = Some row →
         progress_line (now E (ticks w + 3 + i)%nat) i (n + 1) (row (url_field args))
         ∈ stdout w2).
Proof.
  intros Hsetup Hcol n dir cells.
  destruct (main_setup_spec args w df Hsetup)
    as (w1 & Hrun1 & Hfs1 & Hreq1 & Htab1 & Hticks1 & Hout1).
  rewrite (main_run args w df w1 Hrun1), main_process_present by done.
  cbv zeta. fold n. fold dir.
  set (w1' := set_stdout _ (set_ticks S w1)).
  destruct (main_loop_spec df (url_field args) dir (n + 1) (df_rows df) Hcol 0 [] w1')
    as (docs & w2 & Hloop & Hkeys & Hreq & Hfs & Hticks & Htab & Hdirs & Hout & Hprog).
  rewrite Hloop. cbn [app].
  change (requests w1') with (requests w1) in *.
  change (fs w1') with (fs w1) in *.
  change (tables w1') with (tables w1) in *.
  change (ticks w1') with (S (ticks w1)) in *.
  exists docs, w2. split; [done|].
  split; [by rewrite Hkeys, Hreq1|]. split; [by rewrite Hreq, Hreq1|].
  split; [by rewrite Hfs, Hreq1, Hfs1|]. split; [congruence|].
  split.
  - destruct Hout as [more ->]. apply elem_of_app. left.
    cbn. apply elem_of_app. right. rewrite Hticks1. by left.
  - intros i row Hrow. specialize (Hprog i row Hrow). cbn in Hprog.
    by replace (ticks w + 3 + i)%nat with (S (ticks w1) + i)%nat by lia.
Qed.

Lemma to_csv_ok path docs w :
  open_wb_fault E path = None →
  to_csv E path docs w = (Ok (), set_tables (insert path docs) w).
Proof. intros Hok. unfold to_csv. by rewrite Hok. Qed.

Lemma to_csv_prints_nothing path docs w :
  stdout (snd (to_csv E path docs w)) = stdout w.
Proof. unfold to_csv. by destruct (open_wb_fault E path). Qed.

Lemma results_count (l : list (option (str * str * str))) :
  (length (omap id l) + length (filter (λ r, r = None) l))%nat = length l.
Proof.
  induction l as [|[key|] l IH]; [done|..].
  - rewrite filter_cons_False by done. cbn. lia.
  - rewrite filter_cons_True by done. cbn. lia.
Qed.

Lemma batch_results_length k dir cells :
  length (batch_results E k dir cells) = length cells.
Proof. revert k. induction cells as [|c cs IH]; intros k; cbn; [done|]. by rewrite IH. Qed.

(** The URLs of the successful rows are a subsequence of the URLs asked for. *)
Lemma batch_urls_sublist k dir cells :
  (λ key : str * str * str, key.2) <$> omap id (batch_results E k dir cells)
  `sublist_of` concat (cell_requests <$> cells).
Proof.
  revert k. induction cells as [|c cs IH]; intros k; cbn; [constructor|].
  destruct c as [s|ty printed]; cbn.
  - destruct (fetched E k (Py.strip s) _) as [resp|]; cbn.
    + destruct (extracted E _ resp); cbn.
      * apply sublist_skip, IH.
      * apply sublist_cons, IH.
    + apply sublist_cons, IH.
  - apply IH.
Qed.

End BatchFacts.

(** ** C4: the extension given to a URL *)

(** C4 (counterexample). The path component of
    [https://example.com/doc.pdf?v=2] ends in [.pdf], so the claim gives it
    the extension [.pdf]; the script, which takes the [pathlib] suffix of the
    whole URL string, query included, gives it [.html]. *)
Lemma pdf_url_with_query_gets_html :
  Spec.url_path Demo.url_doc = lit "/doc.pdf"
  ∧ Spec.ext Demo.url_doc = lit ".pdf"
  ∧ file_ext_of (Py.strip Demo.url_doc) = lit ".html".
Proof. repeat split; vm_compute; reflexivity. Qed.

(** C4 (amended). The extension is [.pdf] or [.html]. It is [.pdf] exactly
    when the last component of the stripped URL string, taken as a file
    path (query string and fragment included), is a non-empty stem followed
    by [.pdf], case-sensitively. Whenever [processURL] returns a record, the
    record carries that extension and the file stored under the name and
    extension of the record exists. *)
Theorem extension_is_pathlib_suffix (E : Env) (url dir : str) (w : World) :
  let u := Py.strip url in
  (file_ext_of u = lit ".pdf" ∨ file_ext_of u = lit ".html")
  ∧ (file_ext_of u = lit ".pdf"
     ↔ ∃ stem, stem ≠ [] ∧ Py.path_name u = stem ++ lit ".pdf")
  ∧ (∀ d w', processURL E (CStr url) dir w = (Ok (Some d), w') →
       d_ext d = file_ext_of u
       ∧ d_name d = file_name_of u
       ∧ is_Some (fs w' !! Py.os_path_join dir (d_name d ++ d_ext d))).
Proof.
  intros u. split; [|split].
  - destruct (file_ext_of_cases u) as [[-> _]|[-> _]]; auto.
  - rewrite <- path_suffix_pdf.
    destruct (file_ext_of_cases u) as [[Hext Hsuf]|[Hext Hsuf]]; rewrite Hext.
    + done.
    + split; [vm_compute; discriminate|done].
  - intros d w' Hrun.
    destruct (processURL_str E url dir w)
      as (w1 & _ & _ & _ & _ & _ & Hfs & Hcase).
    unfold row_result, row_store in *. fold u in Hfs, Hcase.
    unfold fetched in Hcase.
    destruct (requests_get E (length (requests w)) u fetch_headers) as [resp|msg].
    2: { destruct Hcase as [Hc|[msg' Hc]]; congruence. }
    destruct (open_wb_fault E _) as [msg|].
    { destruct Hcase as [Hc|[msg' Hc]]; congruence. }
    destruct (write_fault E _ (content resp)) as [msg|].
    { destruct Hcase as [Hc|[msg' Hc]]; congruence. }
    destruct (extracted E (file_ext_of u) resp).
    2: { destruct Hcase as [Hc|[msg' Hc]]; congruence. }
    destruct Hcase as (v & Hc & _). rewrite Hc in Hrun.
    injection Hrun as <- <-. cbn. split; [done|]. split; [done|].
    rewrite Hfs, lookup_insert_eq. by eexists.
Qed.

Lemma extension_is_pathlib_suffix_witness :
  file_ext_of (Py.strip Demo.url_paper) = lit ".pdf"
  ∧ ∃ d w',
      processURL Demo.env (CStr Demo.url_paper) (lit "out/files") Demo.world
      = (Ok (Some d), w')
      ∧ d_ext d = lit ".pdf" ∧ d_name d = lit "paper"
      ∧ is_Some (fs w' !! lit "out/files/paper.pdf").
Proof.
  destruct (extension_is_pathlib_suffix Demo.env Demo.url_paper (lit "out/files")
              Demo.world) as (_ & [_ Hpdf] & Hrec).
  split.
  - apply Hpdf. exists (lit "paper"). split; [vm_compute; discriminate|].
    vm_compute. reflexivity.
  - destruct (processURL Demo.env (CStr Demo.url_paper) (lit "out/files") Demo.world)
      as [[[d|]|e] w'] eqn:Hrun; [|vm_compute in Hrun; discriminate..].
    exists d, w'. split; [reflexivity|].
    destruct (Hrec d w' eq_refl) as (He & Hn & Hf).
    split; [rewrite He; vm_compute; reflexivity|].
    split; [rewrite Hn; vm_compute; reflexivity|].
    rewrite He, Hn in Hf. exact Hf.
Defined.

(** ** C6: the URL column is missing *)

(** C6 (counterexample). With a column name the table does not have, the
    run ends through [exit(0)]: the exit status is zero. *)
Lemma missing_column_exit_status_is_zero :
  (lit "url" ∉ df_columns (Demo.link_frame [CStr Demo.url_a; CStr Demo.url_doc]))
  ∧ exit_status (fst (main Demo.env (Demo.args "two.csv" "url") Demo.world)) = 0%Z.
Proof.
  split; [|vm_compute; reflexivity].
  intros Hin. apply (bool_decide_pack _) in Hin. vm_compute in Hin. exact Hin.
Qed.

(** C6 (amended). If the configured URL column is absent from the columns
    of the input table, the run stops before any row is processed: no
    request is sent, no file and no table is written, the line naming the
    available columns and the line [EXITING...] are printed after the two
    start-up lines, and the run ends through [exit(0)], that is with exit
    status zero. *)
Theorem missing_column_stops_the_batch (E : Env) (args : Args) (w : World)
    (df : DataFrame) :
  setup_ok E args w df →
  url_field args ∉ df_columns df →
  ∃ w',
    main E args w = (Raise (SystemExit 0), w')
    ∧ exit_status (fst (main E args w)) = 0%Z
    ∧ requests w' = requests w
    ∧ fs w' = fs w
    ∧ tables w' = tables w
    ∧ stdout w'
      = stdout w
        ++ [now E (ticks w) ++ lit " | Output File Directory: "
              ++ files_dir (output_directory args);
            now E (S (ticks w)) ++ lit " | Output Content CSV: "
              ++ content_csv_path (output_directory args);
            now E (ticks w + 2)%nat ++ lit " | FIELD: " ++ url_field args
              ++ lit " NOT FOUND IN CSV FIELDS: " ++ str_columns E (df_columns df);
            lit "EXITING..."].
Proof.
  intros Hsetup Hcol.
  destruct (main_setup_spec E args w df Hsetup)
    as (w1 & Hrun1 & Hfs1 & Hreq1 & Htab1 & Hticks1 & Hout1).
  rewrite (main_run E args w df w1 Hrun1), main_process_absent by done.
  eexists. split; [reflexivity|]. cbn.
  split; [done|]. split; [done|]. split; [done|]. split; [done|].
  rewrite Hout1, Hticks1, <- app_assoc. reflexivity.
Qed.

Lemma demo_setup_ok (csv column : string) (b : bytes) (df : DataFrame) :
  fs Demo.world !! lit csv = Some b →
  read_csv Demo.env b = Returns df →
  setup_ok Demo.env (Demo.args csv column) Demo.world df.
Proof.
  intros Hb Hdf. split; [by right|]. split; [by right|]. by exists b.
Defined.

Lemma missing_column_stops_the_batch_witness :
  ∃ w',
    main Demo.env (Demo.args "two.csv" "url") Demo.world = (Raise (SystemExit 0), w')
    ∧ requests w' = [] ∧ fs w' = fs Demo.world ∧ tables w' = ∅
    ∧ last (stdout w') = Some (lit "EXITING...").
Proof.
  destruct (missing_column_stops_the_batch Demo.env (Demo.args "two.csv" "url")
              Demo.world (Demo.link_frame [CStr Demo.url_a; CStr Demo.url_doc]))
    as (w' & Hrun & _ & Hreq & Hfs & Htab & Hout).
  - apply (demo_setup_ok "two.csv" "url" [Byte.x01]); vm_compute; reflexivity.
  - intros Hin. apply (bool_decide_pack _) in Hin. vm_compute in Hin. exact Hin.
  - exists w'. split; [exact Hrun|]. split; [exact Hreq|]. split; [exact Hfs|].
    split; [exact Htab|]. rewrite Hout. reflexivity.
Defined.

(** ** C7, C9, C10: the batch *)

(** C7. When the set-up goes through, the column is there and the table can
    be written: if exactly one row of the batch fails (its cell is no
    string, its request, the opening or the writing of its file fails, or
    its text cannot be extracted) and all others go through, [main] returns
    normally, the table written has one record less than the input has rows,
    and every row was announced and every URL requested, those behind the
    failing row included. *)
Theorem one_failing_row_is_skipped (E : Env) (args : Args) (w : World)
    (df : DataFrame) :
  setup_ok E args w df →
  url_field args ∈ df_columns df →
  open_wb_fault E (content_csv_path (output_directory args)) = None →
  length (filter (λ r, r = None)
            (batch_results E (length (requests w))
               (files_dir (output_directory args)) (url_cells args df))) = 1%nat →
  ∃ docs w',
    main E args w = (Ok (), w')
    ∧ tables w' !! content_csv_path (output_directory args) = Some docs
    ∧ length docs = (length (df_rows df) - 1)%nat
    ∧ requests w' = requests w ++ concat (cell_requests <$> url_cells args df)
    ∧ (∀ i row, df_rows df !! i = Some row →
         progress_line (now E (ticks w + 3 + i)%nat) i (length (df_rows df) + 1)
           (row (url_field args)) ∈ stdout w').
Proof.
  intros Hsetup Hcol Hcsv Hone.
  destruct (main_present E args w df Hsetup Hcol)
    as (docs & w2 & Hrun & Hkeys & Hreq & Hfs & Htab & Hfound & Hprog).
  rewrite to_csv_ok in Hrun by done.
  eexists docs, _. split; [exact Hrun|]. cbn.
  split; [apply lookup_insert_eq|]. split; [|split; [done|done]].
  pose proof (results_count (batch_results E (length (requests w))
    (files_dir (output_directory args)) (url_cells args df))) as Hcount.
  rewrite Hone, <- Hkeys, length_fmap, batch_results_length in Hcount.
  unfold url_cells in Hcount. rewrite length_fmap in Hcount. lia.
Qed.

Lemma demo_link_column : lit "link" ∈ [lit "id"; lit "link"].
Proof. apply (bool_decide_unpack _). vm_compute. exact I. Defined.

Lemma one_failing_row_is_skipped_witness :
  ∃ docs w',
    main Demo.env (Demo.args "three.csv" "link") Demo.world = (Ok (), w')
    ∧ tables w' !! lit "out/content.csv" = Some docs
    ∧ length docs = 2%nat
    ∧ requests w' = [Demo.url_a; Demo.url_down; Py.strip Demo.url_paper].
Proof.
  destruct (one_failing_row_is_skipped Demo.env (Demo.args "three.csv" "link")
              Demo.world
              (Demo.link_frame [CStr Demo.url_a; CStr Demo.url_down; CStr Demo.url_paper]))
    as (docs & w' & Hrun & Htab & Hlen & Hreq & _).
  - apply (demo_setup_ok "three.csv" "link" [Byte.x02]); vm_compute; reflexivity.
  - exact demo_link_column.
  - reflexivity.
  - vm_compute. reflexivity.
  - exists docs, w'. split; [exact Hrun|]. split; [exact Htab|].
    split; [exact Hlen|]. rewrite Hreq. vm_compute. reflexivity.
Defined.

(** C9. When the set-up goes through, the column is there and the table can
    be written, the rows of the output table are, in this order, the
    records of the input rows that are processed successfully: row by row in
    input order, a record where the row goes through and nothing where it
    fails. In particular the URLs of the table are a subsequence of the
    stripped URLs of the input column. *)
Theorem output_rows_follow_input_order (E : Env) (args : Args) (w : World)
    (df : DataFrame) :
  setup_ok E args w df →
  url_field args ∈ df_columns df →
  open_wb_fault E (content_csv_path (output_directory args)) = None →
  ∃ docs w',
    main E args w = (Ok (), w')
    ∧ tables w' !! content_csv_path (output_directory args) = Some docs
    ∧ doc_key <$> docs
      = omap id (batch_results E (length (requests w))
                   (files_dir (output_directory args)) (url_cells args df))
    ∧ length (batch_results E (length (requests w))
                (files_dir (output_directory args)) (url_cells args df))
      = length (df_rows df)
    ∧ d_url <$> docs `sublist_of` concat (cell_requests <$> url_cells args df).
Proof.
  intros Hsetup Hcol Hcsv.
  destruct (main_present E args w df Hsetup Hcol)
    as (docs & w2 & Hrun & Hkeys & Hreq & Hfs & Htab & Hfound & Hprog).
  rewrite to_csv_ok in Hrun by done.
  eexists docs, _. split; [exact Hrun|]. cbn.
  split; [apply lookup_insert_eq|]. split; [exact Hkeys|]. split.
  - rewrite batch_results_length. unfold url_cells. by rewrite length_fmap.
  - replace (d_url <$> docs) with ((λ key : str * str * str, key.2) <$> (doc_key <$> docs)).
    + rewrite Hkeys. apply batch_urls_sublist.
    + rewrite <- list_fmap_compose. reflexivity.
Qed.

Lemma output_rows_follow_input_order_witness :
  ∃ docs w',
    main Demo.env (Demo.args "three.csv" "link") Demo.world = (Ok (), w')
    ∧ tables w' !! lit "out/content.csv" = Some docs
    ∧ doc_key <$> docs
      = [(lit "a", lit ".html", Demo.url_a);
         (lit "paper", lit ".pdf", lit "https://example.com/paper.pdf")].
Proof.
  destruct (output_rows_follow_input_order Demo.env (Demo.args "three.csv" "link")
              Demo.world
              (Demo.link_frame [CStr Demo.url_a; CStr Demo.url_down; CStr Demo.url_paper]))
    as (docs & w' & Hrun & Htab & Hkeys & _).
  - apply (demo_setup_ok "three.csv" "link" [Byte.x02]); vm_compute; reflexivity.
  - exact demo_link_column.
  - reflexivity.
  - exists docs, w'. split; [exact Hrun|]. split; [exact Htab|].
    rewrite Hkeys. vm_compute. reflexivity.
Defined.

(** C10. For an input table of N rows with the URL column, the start-up
    line reports N+1 URLs and the progress line of the row at index i
    (counted from 0) shows (i+1)/(N+1), left-justified to ten characters:
    the displayed total is one more than the number of rows. *)
Theorem displayed_total_is_rows_plus_one (E : Env) (args : Args) (w : World)
    (df : DataFrame) :
  setup_ok E args w df →
  url_field args ∈ df_columns df →
  let N := length (df_rows df) in
  ∃ r w',
    main E args w = (r, w')
    ∧ now E (ticks w + 2)%nat ++ lit " | Found " ++ Py.str_of_nat (N + 1)
        ++ lit " URLs" ∈ stdout w'
    ∧ (∀ i row, df_rows df !! i = Some row →
         now E (ticks w + 3 + i)%nat ++ lit " | Processing "
           ++ Py.ljust 10 (Py.str_of_nat (i + 1) ++ lit "/" ++ Py.str_of_nat (N + 1))
           ++ lit " | " ++ cell_format (row (url_field args))
         ∈ stdout w').
Proof.
  intros Hsetup Hcol N.
  destruct (main_present E args w df Hsetup Hcol)
    as (docs & w2 & Hrun & Hkeys & Hreq & Hfs & Htab & Hfound & Hprog).
  pose proof (to_csv_prints_nothing E
    (content_csv_path (output_directory args)) docs w2) as Hout.
  rewrite <- Hrun in Hout.
  destruct (main E args w) as [r w'] eqn:Hmain. cbn in Hout.
  exists r, w'. split; [done|]. rewrite Hout. split; [exact Hfound|exact Hprog].
Qed.

Lemma displayed_total_is_rows_plus_one_witness :
  ∃ r w',
    main Demo.env (Demo.args "three.csv" "link") Demo.world = (r, w')
    ∧ lit "2023-05-01 12:00:02 | Found 4 URLs" ∈ stdout w'
    ∧ lit "2023-05-01 12:00:04 | Processing 2/4        | https://down.example/index.html"
      ∈ stdout w'.
Proof.
  destruct (displayed_total_is_rows_plus_one Demo.env (Demo.args "three.csv" "link")
              Demo.world
              (Demo.link_frame [CStr Demo.url_a; CStr Demo.url_down; CStr Demo.url_paper]))
    as (r & w' & Hrun & Hfound & Hprog).
  - apply (demo_setup_ok "three.csv" "link" [Byte.x02]); vm_compute; reflexivity.
  - exact demo_link_column.
  - exists r, w'. split; [exact Hrun|]. split.
    + exact Hfound.
    + exact (Hprog 1%nat (λ _, CStr Demo.url_down) eq_refl).
Defined.

(** ** C5: the example of the specification *)
Section ExampleFacts.
Context (E : Env).

Lemma fetched_Some k url path resp :
  fetched E k url path = Some resp →
  requests_get E k url fetch_headers = Returns resp
  ∧ open_wb_fault E path = None
  ∧ write_fault E path (content resp) = None.
Proof.
  unfold fetched.
  destruct (requests_get E k url fetch_headers) as [r|msg]; [|done].
  destruct (open_wb_fault E path) as [msg|]; [done|].
  destruct (write_fault E path (content r)) as [msg|] eqn:Hw; [done|].
  by intros [= <-].
Qed.

Lemma row_fetched k dir s resp :
  let url := Py.strip s in
  let path := Py.os_path_join dir (file_name_of url ++ file_ext_of url) in
  fetched E k url path = Some resp →
  extracted E (file_ext_of url) resp = true →
  row_result E k dir (CStr s) = Some (file_name_of url, file_ext_of url, url)
  ∧ ∀ files, row_store E k dir (CStr s) files = <[path := content resp]> files.
Proof.
  intros url path Hfetch Hext. split.
  - unfold row_result. fold url. fold path. by rewrite Hfetch, Hext.
  - intros files. apply fetched_Some in Hfetch as (Hget & Hopen & Hwrite).
    unfold row_store. fold url. fold path. by rewrite Hget, Hopen, Hwrite.
Qed.

End ExampleFacts.

(** C5 (counterexample). In a run on the two URLs of the example in which
    both fetches succeed, no file [doc_.pdf] is stored: the second URL is
    stored as [doc.html], and the two rows of the table are named [a] and
    [doc], both with extension [.html]. *)
Lemma example_run_has_no_doc_pdf :
  let w' := snd (main Demo.env (Demo.args "two.csv" "link") Demo.world) in
  fs w' !! lit "out/files/doc_.pdf" = None
  ∧ fs w' !! lit "out/files/a.html" = Some [Byte.x25; Byte.x50]
  ∧ fs w' !! lit "out/files/doc.html" = Some [Byte.x25; Byte.x50]
  ∧ doc_key <$> default [] (tables w' !! lit "out/content.csv")
    = [(lit "a", lit ".html", Demo.url_a); (lit "doc", lit ".html", Demo.url_doc)].
Proof. repeat split; vm_compute; reflexivity. Qed.

(** C5 (amended). For the input URLs [https://example.com/a.html] and
    [https://example.com/doc.pdf?v=2], both fetched and parsed successfully,
    the run adds to the files directory exactly the files [a.html] and
    [doc.html], holding the two responses, and the output table has two
    rows, named [a] and [doc], both with extension [.html]. *)
Theorem example_run_stores_two_html_files (E : Env) (out csv : str) (w : World)
    (df : DataFrame) (r1 r2 : Response) (s1 s2 : list Dom.node) :
  let args := {| output_directory := out; input_csv := csv;
                 url_field := lit "link" |} in
  let files := files_dir out in
  setup_ok E args w df →
  lit "link" ∈ df_columns df →
  url_cells args df = [CStr Demo.url_a; CStr Demo.url_doc] →
  fetched E (length (requests w)) Demo.url_a
    (Py.os_path_join files (lit "a.html")) = Some r1 →
  fetched E (length (requests w) + 1) Demo.url_doc
    (Py.os_path_join files (lit "doc.html")) = Some r2 →
  BeautifulSoup E (content r1) = Returns s1 →
  BeautifulSoup E (content r2) = Returns s2 →
  open_wb_fault E (content_csv_path out) = None →
  ∃ docs w',
    main E args w = (Ok (), w')
    ∧ fs w' = <[Py.os_path_join files (lit "doc.html") := content r2]>
                (<[Py.os_path_join files (lit "a.html") := content r1]> (fs w))
    ∧ tables w' !! content_csv_path out = Some docs
    ∧ doc_key <$> docs
      = [(lit "a", lit ".html", Demo.url_a); (lit "doc", lit ".html", Demo.url_doc)].
Proof.
  intros args files Hsetup Hcol Hcells Hf1 Hf2 Hs1 Hs2 Hcsv.
  destruct (main_present E args w df Hsetup Hcol)
    as (docs & w2 & Hrun & Hkeys & Hreq & Hfs & Htab & _).
  rewrite to_csv_ok in Hrun by done.
  rewrite Hcells in Hkeys, Hfs.
  change (files_dir (output_directory args)) with files in Hkeys, Hfs.
  assert (Ha : Py.strip Demo.url_a = Demo.url_a
               ∧ file_name_of Demo.url_a = lit "a"
               ∧ file_ext_of Demo.url_a = lit ".html"
               ∧ lit "a" ++ lit ".html" = lit "a.html")
    by (repeat split; vm_compute; reflexivity).
  assert (Hd : Py.strip Demo.url_doc = Demo.url_doc
               ∧ file_name_of Demo.url_doc = lit "doc"
               ∧ file_ext_of Demo.url_doc = lit ".html"
               ∧ lit "doc" ++ lit ".html" = lit "doc.html")
    by (repeat split; vm_compute; reflexivity).
  destruct Ha as (Ha1 & Ha2 & Ha3 & Ha4), Hd as (Hd1 & Hd2 & Hd3 & Hd4).
  assert (Hhtml : ∀ r s, BeautifulSoup E (content r) = Returns s →
                         extracted E (lit ".html") r = true).
  { intros r s Hr. unfold extracted. rewrite Hr. apply orb_true_r. }
  destruct (row_fetched E (length (requests w)) files Demo.url_a r1) as [Hk1 Hst1].
  { by rewrite Ha1, Ha2, Ha3, Ha4. }
  { rewrite Ha1, Ha3. by eapply Hhtml. }
  destruct (row_fetched E (length (requests w) + 1) files Demo.url_doc r2) as [Hk2 Hst2].
  { by rewrite Hd1, Hd2, Hd3, Hd4. }
  { rewrite Hd1, Hd3. by eapply Hhtml. }
  rewrite Ha1, Ha2, Ha3 in Hk1, Hst1. rewrite Ha4 in Hst1.
  rewrite Hd1, Hd2, Hd3 in Hk2, Hst2. rewrite Hd4 in Hst2.
  cbn [batch_results batch_store cell_requests length] in Hkeys, Hfs.
  rewrite Hk1, Hk2 in Hkeys. rewrite Hst1, Hst2 in Hfs.
  eexists docs, _. split; [exact Hrun|]. cbn.
  split; [exact Hfs|]. split; [apply lookup_insert_eq|]. exact Hkeys.
Qed.

Lemma example_run_stores_two_html_files_witness :
  ∃ docs w',
    main Demo.env (Demo.args "two.csv" "link") Demo.world = (Ok (), w')
    ∧ fs w' = <[lit "out/files/doc.html" := [Byte.x25; Byte.x50]]>
                (<[lit "out/files/a.html" := [Byte.x25; Byte.x50]]> (fs Demo.world))
    ∧ tables w' !! lit "out/content.csv" = Some docs
    ∧ doc_key <$> docs
      = [(lit "a", lit ".html", Demo.url_a); (lit "doc", lit ".html", Demo.url_doc)].
Proof.
  apply (example_run_stores_two_html_files Demo.env (lit "out") (lit "two.csv")
           Demo.world (Demo.link_frame [CStr Demo.url_a; CStr Demo.url_doc])
           {| status_code := 200; content := [Byte.x25; Byte.x50] |}
           {| status_code := 200; content := [Byte.x25; Byte.x50] |}
           Demo.html_soup Demo.html_soup).
  - apply (demo_setup_ok "two.csv" "link" [Byte.x01]); vm_compute; reflexivity.
  - exact demo_link_column.
  - reflexivity.
  - vm_compute. reflexivity.
  - vm_compute. reflexivity.
  - reflexivity.
  - reflexivity.
  - reflexivity.
Defined.

(** * Further properties of the script *)

Import Shape.

(** ** The page loop and the clean-up of [pdfToText] *)
Section PdfText.
Import Py.

Lemma join_cons_cons sep p q ps : join sep (p :: q :: ps) = p ++ sep ++ join sep (q :: ps).
Proof. reflexivity. Qed.

Lemma join_absorb sep a t ts :
  join sep ((a ++ sep ++ t) :: ts) = a ++ sep ++ join sep (t :: ts).
Proof.
  destruct ts as [|x xs]; [done|].
  rewrite !join_cons_cons, <- !app_assoc. reflexivity.
Qed.

(** The loop with any text so far. *)
Lemma pdf_pages_text rd remaining counter text w :
  page_error rd remaining counter = None →
  ∃ w',
    pdf_pages rd remaining counter text w
    = (Ok (if bool_decide (text = [])
           then join [LF] (drop_empty (page_texts rd remaining counter))
           else join [LF] (text :: page_texts rd remaining counter)), w')
    ∧ only_prints w w'
    ∧ stdout w' = stdout w ++ page_warnings rd remaining counter.
Proof.
  revert counter text w.
  induction remaining as [|k IH]; intros counter text w Hok.
  - exists w. cbn. munfold. split; [case_bool_decide; by subst|].
    split; [apply only_prints_refl|by rewrite app_nil_r].
  - cbn [page_error page_texts page_warnings pdf_pages] in *. munfold.
    destruct (getPage rd counter) as [page|msg]; [|done].
    cbn -[join drop_empty].
    destruct (extractText page) as [t|msg]; case_bool_decide as Htext;
      munfold; cbn -[join drop_empty].
    + subst text.
      destruct (IH (counter + 1)%nat t w Hok) as (w' & Hrun & Hp & Hout).
      exists w'. rewrite Hrun. split; [|done]. f_equal. f_equal.
      cbn [drop_empty]. by case_bool_decide.
    + assert (Hne : text ++ LF :: t ≠ []) by (by destruct text).
      destruct (IH (counter + 1)%nat (text ++ LF :: t) w Hok) as (w' & Hrun & Hp & Hout).
      exists w'. rewrite Hrun, bool_decide_eq_false_2 by done.
      split; [|done]. f_equal. f_equal.
      apply (join_absorb [LF] text t).
    + match goal with
      | |- context [pdf_pages _ _ _ _ ?w1] =>
          destruct (IH (counter + 1)%nat text w1 Hok) as (w' & Hrun & Hp & Hout)
      end.
      exists w'. rewrite Hrun, bool_decide_eq_true_2 by done.
      split; [done|]. split.
      * eapply only_prints_trans; [apply only_prints_print|exact Hp].
      * rewrite Hout. cbn. by rewrite <- app_assoc.
    + match goal with
      | |- context [pdf_pages _ _ _ _ ?w1] =>
          destruct (IH (counter + 1)%nat text w1 Hok) as (w' & Hrun & Hp & Hout)
      end.
      exists w'. rewrite Hrun, bool_decide_eq_false_2 by done.
      split; [done|]. split.
      * eapply only_prints_trans; [apply only_prints_print|exact Hp].
      * rewrite Hout. cbn. by rewrite <- app_assoc.
Qed.

(** X1. When every page of the document can be fetched, the page loop of
    [pdfToText] ends with the texts of the pages whose extraction succeeds,
    in page order and separated by newlines, except that the empty texts
    before the first non-empty one leave no trace (no separator); for each
    page whose extraction raises, one warning line is printed and the page
    is left out. Nothing else is changed. *)
Theorem pdf_pages_concatenates (rd : PdfReader) (n : nat) (w : World) :
  page_error rd n 0 = None →
  ∃ w',
    pdf_pages rd n 0 [] w
    = (Ok (join [LF] (drop_empty (page_texts rd n 0))), w')
    ∧ only_prints w w'
    ∧ stdout w' = stdout w ++ page_warnings rd n 0.
Proof. intros Hok. exact (pdf_pages_text rd n 0 [] w Hok). Qed.

Lemma pdf_pages_concatenates_witness :
  ∃ w',
    pdf_pages Faulty.pdf_reader 3 0 [] Demo.world = (Ok (lit "last page"), w')
    ∧ stdout w' = [lit "Text not found in document. unsupported filter"].
Proof.
  destruct (pdf_pages_concatenates Faulty.pdf_reader 3 Demo.world)
    as (w' & Hrun & _ & Hout); [reflexivity|].
  exists w'. split; [exact Hrun|exact Hout].
Defined.

Lemma has_2sp_cons c x :
  has_2sp (c :: x)
  = match x with
    | d :: _ => (c =? SPACE) && (d =? SPACE)
    | [] => false
    end || has_2sp x.
Proof. by destruct x. Qed.

Lemma sub_spaces_cons c r :
  sub_spaces (c :: r) =
  if c =? SPACE then
    match r with
    | d :: _ => if d =? SPACE then sub_spaces r else c :: sub_spaces r
    | [] => [c]
    end
  else c :: sub_spaces r.
Proof. reflexivity. Qed.

Lemma sub_spaces_Forall (P : N → Prop) s : Forall P s → Forall P (sub_spaces s).
Proof.
  induction 1 as [|c r Hc Hr IH]; [constructor|].
  rewrite sub_spaces_cons. destruct (c =? SPACE); [|by constructor].
  destruct r as [|d r']; [by repeat constructor|].
  destruct (d =? SPACE); [done|by constructor].
Qed.

Lemma sub_spaces_nonempty c r : sub_spaces (c :: r) ≠ [].
Proof.
  revert c. induction r as [|d r IH]; intros c; rewrite sub_spaces_cons.
  - by destruct (c =? SPACE).
  - destruct (c =? SPACE); [|done]. destruct (d =? SPACE); [apply IH|done].
Qed.

Lemma sub_spaces_no_2sp s : has_2sp (sub_spaces s) = false.
Proof.
  induction s as [|c r IH]; [done|].
  rewrite sub_spaces_cons.
  destruct (c =? SPACE) eqn:Hc.
  - destruct r as [|d r']; [done|].
    destruct (d =? SPACE) eqn:Hd; [exact IH|].
    rewrite has_2sp_cons, IH.
    rewrite sub_spaces_cons, Hd. by rewrite Hd, andb_false_r.
  - rewrite has_2sp_cons, IH, Hc. by destruct (sub_spaces r).
Qed.

Lemma sub_spaces_last s : last (sub_spaces s) = last s.
Proof.
  induction s as [|c r IH]; [done|].
  rewrite sub_spaces_cons. destruct r as [|d r'].
  - by destruct (c =? SPACE).
  - assert (Hl : last (c :: sub_spaces (d :: r')) = last (c :: d :: r')).
    { pose proof (sub_spaces_nonempty d r') as Hne.
      destruct (sub_spaces (d :: r')) as [|x xs] eqn:Hs; [done|].
      rewrite !last_cons_cons. exact IH. }
    destruct (c =? SPACE); [|exact Hl].
    destruct (d =? SPACE); [|exact Hl].
    rewrite IH. by rewrite last_cons_cons.
Qed.

Lemma rstrip_cons c r :
  rstrip (c :: r) =
  match rstrip r with
  | [] => if isspace c then [] else [c]
  | r' => c :: r'
  end.
Proof. reflexivity. Qed.

(** The last character left by [rstrip] is no white space. *)
Lemma rstrip_last s c : last (rstrip s) = Some c → isspace c = false.
Proof.
  induction s as [|d r IH]; [done|].
  rewrite rstrip_cons. destruct (rstrip r) as [|x xs].
  - destruct (isspace d) eqn:Hd; [done|]. by intros [= <-].
  - rewrite last_cons_cons. exact IH.
Qed.

Lemma rstrip_fixed s :
  (∀ c, last s = Some c → isspace c = false) → rstrip s = s.
Proof.
  induction s as [|d r IH]; [done|]. intros Hlast.
  rewrite rstrip_cons. destruct r as [|x xs].
  - cbn. by rewrite (Hlast d).
  - rewrite IH; [done|]. intros c Hc. apply Hlast. by rewrite last_cons_cons.
Qed.

Lemma splitlines_Forall (P : N → Prop) s :
  Forall P s → Forall (Forall P) (splitlines s).
Proof.
  remember (length s) as n eqn:Hn. revert s Hn.
  induction n as [n IH] using lt_wf_ind. intros s Hn Hs.
  destruct s as [|c r]; [constructor|].
  apply Forall_cons in Hs as [Hc Hs]. rewrite splitlines_cons.
  destruct (islinebreak c).
  - destruct r as [|d r']; [repeat constructor|].
    apply Forall_cons in Hs as [Hd Hs'].
    destruct ((c =? CR) && (d =? LF)); (constructor; [constructor|]).
    + apply (IH (length r')); [subst n; simpl; lia|done|done].
    + apply (IH (length (d :: r'))); [subst n; simpl; lia|done|by constructor].
  - assert (Hrec : Forall (Forall P) (splitlines r)).
    { apply (IH (length r)); [subst n; simpl; lia|done|done]. }
    destruct (splitlines r) as [|l ls].
    + repeat constructor; done.
    + apply Forall_cons in Hrec as [Hl Hls]. constructor; [by constructor|done].
Qed.

Lemma join_Forall (P : N → Prop) sep parts :
  Forall P sep → Forall (Forall P) parts → Forall P (join sep parts).
Proof.
  intros Hsep. induction 1 as [|p ps Hp Hps IH]; [constructor|].
  destruct ps as [|q qs]; [done|].
  rewrite join_cons_cons. apply Forall_app. split; [done|].
  apply Forall_app. split; [done|exact IH].
Qed.

(** [strip] leaves the empty string or a string that starts with a
    character that is no white space. *)
Lemma strip_head s c r : strip s = c :: r → isspace c = false.
Proof.
  unfold strip. destruct (lstrip s) as [|d r'] eqn:Hs; [done|].
  apply lstrip_head in Hs.
  destruct (rstrip_keeps_head d r' Hs) as [r'' ->]. by intros [= <- _].
Qed.

(** X2. The clean-up at the end of [pdfToText] leaves a text without
    commas, without line boundaries, without two adjacent spaces and
    without white space at its ends. *)
Theorem pdf_cleanup_normal_form (text : str) :
  let r := pdf_cleanup text in
  (44 ∉ r)
  ∧ Forall nobreak r
  ∧ has_2sp r = false
  ∧ strip r = r.
Proof.
  intros r. unfold r, pdf_cleanup. split; [|split; [|split]].
  - assert (Hall : Forall (λ c, c ≠ 44)
        (sub_spaces (strip (join [SPACE]
           (splitlines (replace_char 44 SPACE text)))))).
    { apply sub_spaces_Forall, strip_Forall, join_Forall.
      - by repeat constructor.
      - apply splitlines_Forall. unfold replace_char.
        apply Forall_fmap, Forall_true. intros c. cbn.
        destruct (c =? 44) eqn:Hc; [done|]. by apply N.eqb_neq. }
    rewrite Forall_forall in Hall. intros Hin. by apply (Hall 44 Hin).
  - apply sub_spaces_Forall, strip_Forall, join_Forall.
    + by repeat constructor.
    + apply splitlines_nobreak.
  - apply sub_spaces_no_2sp.
  - set (u := strip (join [SPACE] (splitlines (replace_char 44 SPACE text)))).
    assert (Hr : rstrip (sub_spaces u) = sub_spaces u).
    { apply rstrip_fixed. intros c. rewrite sub_spaces_last.
      unfold u, strip. apply rstrip_last. }
    unfold strip at 1. destruct u as [|c v] eqn:Hu; [done|].
    apply strip_head in Hu.
    assert (Hc : (c =? SPACE) = false).
    { destruct (c =? SPACE) eqn:Hsp; [|done].
      apply N.eqb_eq in Hsp. subst c. done. }
    rewrite sub_spaces_cons, Hc in Hr |- *.
    by rewrite lstrip_fixed.
Qed.

(** ** The chunks of [getTextfromHTML] *)

Lemma has_2sp_tail c r : has_2sp (c :: r) = false → has_2sp r = false.
Proof. rewrite has_2sp_cons. by intros [_ ?]%orb_false_elim. Qed.

Lemma lstrip_no_2sp s : has_2sp s = false → has_2sp (lstrip s) = false.
Proof.
  induction s as [|c r IH]; [done|]. intros Hs. cbn [lstrip].
  destruct (isspace c); [|done]. by apply IH, (has_2sp_tail c).
Qed.

(** [rstrip] keeps a beginning of the string. *)
Lemma rstrip_prefix_head r x xs : rstrip r = x :: xs → ∃ r', r = x :: r'.
Proof.
  destruct r as [|d r']; [done|]. rewrite rstrip_cons.
  destruct (rstrip r') as [|y ys].
  - destruct (isspace d); [done|]. intros [= <- _]. by eexists.
  - intros [= <- _]. by eexists.
Qed.

Lemma rstrip_no_2sp s : has_2sp s = false → has_2sp (rstrip s) = false.
Proof.
  induction s as [|c r IH]; [done|]. intros Hs.
  rewrite rstrip_cons.
  destruct (rstrip r) as [|x xs] eqn:Hr.
  - by destruct (isspace c).
  - rewrite has_2sp_cons in Hs |- *.
    apply orb_false_elim in Hs as [Hhead Htail].
    rewrite (IH Htail), orb_false_r.
    destruct (rstrip_prefix_head r x xs Hr) as [r' ->]. exact Hhead.
Qed.

Lemma strip_no_2sp s : has_2sp s = false → has_2sp (strip s) = false.
Proof. intros. by apply rstrip_no_2sp, lstrip_no_2sp. Qed.

(** The first piece of a split is empty or starts like the string. *)
Lemma split_2sp_first d r :
  match split_2sp (d :: r) with
  | l :: _ => l = [] ∨ ∃ l', l = d :: l'
  | [] => False
  end.
Proof.
  destruct r as [|e r']; [right; by eexists|].
  rewrite split_2sp_cons2. destruct ((d =? SPACE) && (e =? SPACE)); [by left|].
  destruct (split_2sp (e :: r')); right; by eexists.
Qed.

(** No piece of [split("  ")] holds two adjacent spaces. *)
Lemma split_2sp_no_2sp s : Forall (λ p, has_2sp p = false) (split_2sp s).
Proof.
  remember (length s) as n eqn:Hn. revert s Hn.
  induction n as [n IH] using lt_wf_ind. intros s Hn.
  destruct s as [|c [|d r]]; [by repeat constructor..|].
  rewrite split_2sp_cons2.
  assert (Hrec : Forall (λ p, has_2sp p = false) (split_2sp (d :: r))).
  { apply (IH (length (d :: r))); [subst n; simpl; lia|done]. }
  pose proof (split_2sp_first d r) as Hfirst.
  destruct ((c =? SPACE) && (d =? SPACE)) eqn:Hcd.
  - constructor; [done|]. apply (IH (length r)); [subst n; simpl; lia|done].
  - destruct (split_2sp (d :: r)) as [|l ls]; [done|].
    apply Forall_cons in Hrec as [Hl Hls]. constructor; [|done].
    rewrite has_2sp_cons, Hl, orb_false_r.
    destruct Hfirst as [-> | [l' ->]]; [done|exact Hcd].
Qed.

(** A string without two adjacent spaces is not split. *)
Lemma split_2sp_whole s : has_2sp s = false → split_2sp s = [s].
Proof.
  induction s as [|c r IH]; [done|]. intros Hs.
  destruct r as [|d r']; [done|].
  rewrite split_2sp_cons2. rewrite has_2sp_cons in Hs.
  apply orb_false_elim in Hs as [Hcd Hr]. rewrite Hcd, (IH Hr). reflexivity.
Qed.

Lemma html_chunks_no_2sp text :
  Forall (λ ch, has_2sp ch = false) (html_chunks text).
Proof.
  unfold html_chunks. apply Forall_forall. intros ch Hch.
  apply list_elem_of_filter in Hch as [_ Hch].
  apply list_elem_of_In, in_concat in Hch as (phrases & Hph & Hch).
  apply in_map_iff in Hph as (line & <- & _).
  apply list_elem_of_In, list_elem_of_fmap in Hch as (phrase & -> & Hphrase).
  apply strip_no_2sp.
  pose proof (split_2sp_no_2sp line) as Hall.
  rewrite Forall_forall in Hall. by apply Hall.
Qed.

(** X8. The line clean-up of [getTextfromHTML] (lines 58 to 62) is
    idempotent: cleaning the text it produces gives the same chunks again.
    No chunk holds two adjacent spaces. *)
Theorem html_chunks_idempotent (text : str) :
  html_chunks (join [LF] (html_chunks text)) = html_chunks text
  ∧ Forall (λ ch, has_2sp ch = false) (html_chunks text).
Proof.
  split; [|apply html_chunks_no_2sp].
  pose proof (html_chunks_spec text) as Hspec.
  pose proof (html_chunks_no_2sp text) as Hsp.
  set (cs := html_chunks text) in *.
  unfold html_chunks at 1.
  rewrite splitlines_join
    by (eapply Forall_impl; [exact Hspec|]; by intros ch (?&?&?)).
  induction cs as [|c cs IH]; [done|].
  apply Forall_cons in Hspec as [(Hne & Hstrip & _) Hspec].
  apply Forall_cons in Hsp as [Hc Hsp].
  cbn [fmap list_fmap map concat].
  rewrite Hstrip, (split_2sp_whole c Hc). cbn [fmap list_fmap app].
  rewrite Hstrip, filter_cons_True by done.
  f_equal. by apply IH.
Qed.

End PdfText.

(** ** What [getUrl] does to the files *)

(** X4. [getUrl] changes no file other than its destination, no directory
    and no table; when the request or the opening of the destination
    fails, no file is changed at all. *)
Theorem getUrl_touches_only_destination (E : Env) (url fileOut : str) (w : World) :
  let w' := snd (getUrl E url fileOut w) in
  (∀ p, p ≠ fileOut → fs w' !! p = fs w !! p)
  ∧ dirs w' = dirs w ∧ tables w' = tables w ∧ ticks w' = ticks w
  ∧ match requests_get E (length (requests w)) url fetch_headers,
          open_wb_fault E fileOut with
    | Returns _, None => True
    | _, _ => fs w' = fs w
    end.
Proof.
  cbv zeta. rewrite getUrl_run. cbv zeta.
  destruct (requests_get E (length (requests w)) url fetch_headers) as [resp|msg];
    [|by split_and!].
  destruct (open_wb_fault E fileOut) as [msg|]; [by split_and!|].
  destruct (write_fault E fileOut (content resp)) as [[msg n]|]; cbn.
  - split_and!; try done. intros p Hp. by rewrite !lookup_insert_ne.
  - split_and!; try done. intros p Hp. by rewrite !lookup_insert_ne.
Qed.

(** X5. When the response has arrived and the destination was opened, but
    writing fails, [getUrl] prints the exception, returns [False] and leaves
    at the destination only the initial part of the response body that had
    been written by then, possibly nothing: what an earlier download had
    stored there is lost. *)
Theorem getUrl_failed_write_leaves_partial_file (E : Env) (url fileOut : str)
    (w : World) (resp : Response) (msg : str) (n : nat) :
  requests_get E (length (requests w)) url fetch_headers = Returns resp →
  open_wb_fault E fileOut = None →
  write_fault E fileOut (content resp) = Some (msg, n) →
  ∃ w',
    getUrl E url fileOut w = (Ok false, w')
    ∧ fs w' !! fileOut = Some (take n (content resp))
    ∧ stdout w' = stdout w ++ [lit ">>>Exception in getting the URL:" ++ msg].
Proof.
  intros Hget Hopen Hwrite. rewrite getUrl_run. cbv zeta.
  rewrite Hget, Hopen, Hwrite. eexists. split; [reflexivity|]. cbn.
  split; [apply lookup_insert_eq|done].
Qed.

Lemma getUrl_failed_write_leaves_partial_file_witness :
  fs Faulty.world !! lit "out/files/a.html" = Some [Byte.x3c; Byte.x70; Byte.x3e]
  ∧ ∃ w',
      getUrl Faulty.env Demo.url_a (lit "out/files/a.html") Faulty.world
      = (Ok false, w')
      ∧ fs w' !! lit "out/files/a.html" = Some [Byte.x25]
      ∧ stdout w'
        = stdout Faulty.world
          ++ [lit ">>>Exception in getting the URL:"
                ++ lit "[Errno 28] No space left on device"].
Proof.
  split; [vm_compute; reflexivity|].
  apply (getUrl_failed_write_leaves_partial_file Faulty.env Demo.url_a
           (lit "out/files/a.html") Faulty.world
           {| status_code := 200; content := [Byte.x25; Byte.x50] |}
           (lit "[Errno 28] No space left on device") 1).
  - vm_compute. reflexivity.
  - reflexivity.
  - reflexivity.
Defined.

(** ** The name of the stored file *)
Section FileName.
Import Py.

(** No piece of [split(sep)] holds the separator. *)
Lemma split_char_no_sep sep s :
  Forall (Forall (λ c, c ≠ sep)) (split_char sep s).
Proof.
  induction s as [|c r IH]; cbn; [by repeat constructor|].
  destruct (c =? sep) eqn:Hc; [by repeat constructor|].
  apply N.eqb_neq in Hc.
  destruct (split_char sep r) as [|l ls]; [by repeat constructor|].
  apply Forall_cons in IH as [Hl Hls]. constructor; [by constructor|done].
Qed.

Lemma path_name_no_slash s : Forall (λ c, c ≠ SLASH) (path_name s).
Proof.
  unfold path_name, path_tail.
  destruct (last _) as [name|] eqn:Hlast; [|constructor]. cbn.
  apply last_Some_elem_of, list_elem_of_filter in Hlast as [_ Hin].
  pose proof (split_char_no_sep SLASH s) as Hall.
  rewrite Forall_forall in Hall. by apply Hall.
Qed.

Lemma path_stem_no_slash s : Forall (λ c, c ≠ SLASH) (path_stem s).
Proof.
  unfold path_stem. pose proof (path_name_no_slash s) as Hname.
  destruct (_ && _); [by apply Forall_take|done].
Qed.

Lemma stored_name_chars url :
  file_name_of url ++ file_ext_of url ≠ []
  ∧ Forall (λ c, c ≠ SLASH ∧ c ≠ 63) (file_name_of url ++ file_ext_of url).
Proof.
  assert (Hext : file_ext_of url ≠ []
                 ∧ Forall (λ c, c ≠ SLASH ∧ c ≠ 63) (file_ext_of url)).
  { destruct (file_ext_of_cases url) as [[-> _]|[-> _]]; split;
      try (vm_compute; discriminate).
    all: apply Forall_forall; intros c Hc;
      apply (bool_decide_pack _) in Hc; vm_compute in Hc;
      repeat (case_match; try done). }
  destruct Hext as [Hne Hext].
  assert (Hname : Forall (λ c, c ≠ SLASH ∧ c ≠ 63) (file_name_of url)).
  { unfold file_name_of, replace_char. apply Forall_fmap.
    eapply Forall_impl; [apply (path_stem_no_slash url)|].
    intros c Hc. cbn. destruct (c =? 63) eqn:H63.
    - split; discriminate.
    - split; [done|]. by apply N.eqb_neq. }
  split.
  - intros Hf. by apply app_eq_nil in Hf as [_ ?].
  - apply Forall_app. by split.
Qed.

(** Joining a directory and a name that does not start with a slash. *)
Lemma os_path_join_plain dir f :
  (∀ c r, f = c :: r → c ≠ SLASH) →
  os_path_join dir f = dir ++ f ∨ os_path_join dir f = dir ++ [SLASH] ++ f.
Proof.
  intros Hhead. unfold os_path_join. destruct f as [|c f'].
  - destruct (last dir) as [e|] eqn:Hl.
    + destruct (e =? SLASH); auto.
    + apply last_None in Hl. subst dir. by left.
  - assert (Hc : (c =? SLASH) = false) by (apply N.eqb_neq; by eapply Hhead).
    rewrite Hc. destruct (last dir) as [e|] eqn:Hl.
    + destruct (e =? SLASH); auto.
    + apply last_None in Hl. subst dir. by left.
Qed.

Lemma stored_path_in_dir url dir :
  dir `prefix_of` os_path_join dir (file_name_of url ++ file_ext_of url).
Proof.
  destruct (stored_name_chars url) as [_ Hall].
  destruct (os_path_join_plain dir (file_name_of url ++ file_ext_of url)) as [-> | ->].
  - intros c r Hf. rewrite Hf in Hall. by apply Forall_cons in Hall as [[? _] _].
  - by apply prefix_app_r.
  - by apply prefix_app_r.
Qed.

(** The exact rule of [os.path.join] for a name that does not start with a
    slash: the name is appended, after a slash unless the directory is the
    empty string or ends with a slash. *)
Lemma os_path_join_exact dir f :
  (∀ c r, f = c :: r → c ≠ SLASH) →
  os_path_join dir f
  = dir ++ (if bool_decide (dir = [] ∨ last dir = Some SLASH) then [] else [SLASH])
        ++ f.
Proof.
  intros Hhead.
  assert (Hjoin : os_path_join dir f
                  = match last dir with
                    | None => f
                    | Some e => if e =? SLASH then dir ++ f else dir ++ [SLASH] ++ f
                    end).
  { unfold os_path_join. destruct f as [|c f']; [done|].
    assert (Hc : (c =? SLASH) = false) by (apply N.eqb_neq; by eapply Hhead).
    by rewrite Hc. }
  rewrite Hjoin. destruct (last dir) as [e|] eqn:Hl.
  - assert (Hd : dir ≠ []) by (by intros ->).
    destruct (e =? SLASH) eqn:He.
    + apply N.eqb_eq in He. subst e.
      rewrite bool_decide_eq_true_2 by (by right). done.
    + apply N.eqb_neq in He.
      rewrite bool_decide_eq_false_2; [done|].
      intros [? | [= ?]]; done.
  - apply last_None in Hl. subst dir.
    rewrite bool_decide_eq_true_2 by (by left). done.
Qed.

(** X6. Whatever the URL, the name under which its file is stored is not
    empty and holds neither a slash nor a question mark, and the path of the
    file is the output directory followed by that name, with exactly one
    slash in between unless the directory is the empty string or already
    ends with a slash: the file lies directly in the output directory. *)
Theorem stored_file_name_is_plain (url dir : str) :
  let f := file_name_of url ++ file_ext_of url in
  f ≠ []
  ∧ (SLASH ∉ f)
  ∧ (63 ∉ f)
  ∧ os_path_join dir f
    = dir ++ (if bool_decide (dir = [] ∨ last dir = Some SLASH) then [] else [SLASH])
          ++ f.
Proof.
  intros f. destruct (stored_name_chars url) as [Hne Hall]. fold f in Hne, Hall.
  split; [done|].
  split; [|split].
  - rewrite Forall_forall in Hall. intros Hin. by destruct (Hall _ Hin).
  - rewrite Forall_forall in Hall. intros Hin. by destruct (Hall _ Hin).
  - apply os_path_join_exact. intros c r Hf. rewrite Hf in Hall.
    by apply Forall_cons in Hall as [[? _] _].
Qed.

End FileName.

(** ** Records, files and texts of a whole run *)
Section TableFacts.
Context (E : Env).

Lemma row_store_keeps (k : nat) (dir : str) (c : cell) (files : gmap str bytes) (p : str) :
  is_Some (files !! p) → is_Some (row_store E k dir c files !! p).
Proof.
  intros Hp. unfold row_store. destruct c as [s|ty printed]; [|done].
  destruct (requests_get E k _ fetch_headers) as [resp|msg]; [|done].
  destruct (open_wb_fault E _) as [msg|]; [done|].
  destruct (write_fault E _ (content resp)) as [[msg n]|];
    rewrite lookup_insert; case_decide; by eauto.
Qed.

Lemma batch_store_keeps (k : nat) (dir : str) (cells : list cell) (files : gmap str bytes) (p : str) :
  is_Some (files !! p) → is_Some (batch_store E k dir cells files !! p).
Proof.
  revert k files. induction cells as [|c cs IH]; intros k files Hp; [done|].
  cbn. by apply IH, row_store_keeps.
Qed.

Lemma row_result_stored (k : nat) (dir : str) (c : cell) (files : gmap str bytes) (name ext url : str) :
  row_result E k dir c = Some (name, ext, url) →
  is_Some (row_store E k dir c files !! Py.os_path_join dir (name ++ ext)).
Proof.
  unfold row_result, row_store, fetched. destruct c as [s|ty printed]; [|done].
  destruct (requests_get E k _ fetch_headers) as [resp|msg]; [|done].
  destruct (open_wb_fault E _) as [msg|]; [done|].
  destruct (write_fault E _ (content resp)) as [msg|]; [done|].
  destruct (extracted E _ resp); [|done]. intros [= <- <- <-].
  rewrite lookup_insert_eq. by eexists.
Qed.

Lemma batch_results_stored (k : nat) (dir : str) (cells : list cell) (files : gmap str bytes) :
  Forall (λ key : str * str * str,
            is_Some (batch_store E k dir cells files
                     !! Py.os_path_join dir (key.1.1 ++ key.1.2)))
         (omap id (batch_results E k dir cells)).
Proof.
  revert k files. induction cells as [|c cs IH]; intros k files; [constructor|].
  cbn [batch_results batch_store omap].
  destruct (row_result E k dir c) as [[[name ext] url]|] eqn:Hrow; cbn.
  - constructor; [|apply IH]. cbn.
    by apply batch_store_keeps, row_result_stored with url.
  - apply IH.
Qed.

(** The run up to the writing of the table, with the loop it goes through. *)
Lemma main_via_loop args w df :
  setup_ok E args w df →
  url_field args ∈ df_columns df →
  ∃ w1 docs w2,
    main_loop E df (url_field args) (files_dir (output_directory args))
      (length (df_rows df) + 1) 0 (df_rows df) [] w1 = (Ok docs, w2)
    ∧ main E args w = to_csv E (content_csv_path (output_directory args)) docs w2.
Proof.
  intros Hsetup Hcol.
  destruct (main_setup_spec E args w df Hsetup) as (w1 & Hrun1 & _).
  rewrite (main_run E args w df w1 Hrun1), main_process_present by done.
  cbv zeta. set (w1' := set_stdout _ (set_ticks S w1)).
  destruct (main_loop_spec E df (url_field args) (files_dir (output_directory args))
              (length (df_rows df) + 1) (df_rows df) Hcol 0 [] w1')
    as (docs & w2 & Hloop & _).
  exists w1', docs, w2. by rewrite Hloop.
Qed.

(** What holds of every record [processURL] returns holds of every record
    the loop collects. *)
Lemma main_loop_Forall (P : Document → Prop) df col dir url_count rows :
  col ∈ df_columns df →
  (∀ c w d w', processURL E c dir w = (Ok (Some d), w') → P d) →
  ∀ ind sofar w docs w',
    Forall P sofar →
    main_loop E df col dir url_count ind rows sofar w = (Ok docs, w') →
    Forall P docs.
Proof.
  intros Hcol HP. induction rows as [|row rows IH]; intros ind sofar w docs w' Hsofar.
  - cbn. by intros [= <- _].
  - cbn [main_loop]. unfold mbind at 1, M_bind at 1.
    rewrite process_row_run by done. cbv zeta.
    destruct (processURL E (row col) dir _) as [[[d|]|[msg|code]] w1] eqn:Hrun.
    + apply IH. apply Forall_app. split; [done|].
      constructor; [|constructor]. by eapply HP.
    + by apply IH.
    + by apply IH.
    + done.
Qed.

(** The text of a record: for a PDF [None] or the empty string, for the
    rest a string. *)
Lemma processURL_text c dir w d w' :
  processURL E c dir w = (Ok (Some d), w') →
  if bool_decide (d_ext d = lit ".pdf")
  then d_text d = VNone ∨ d_text d = VStr []
  else ∃ t, d_text d = VStr t.
Proof.
  destruct c as [s|ty printed]; [|by destruct (processURL_other E ty printed dir w) as [? ->]].
  rewrite processURL_run. cbv zeta.
  destruct (getUrl E _ _ w) as [[[|]|e] w1]; [|done..].
  destruct (file_ext_of_cases (Py.strip s)) as [[Hext _]|[Hext _]]; rewrite Hext.
  - rewrite getTextFromFile_pdf.
    destruct (fs w1 !! Py.os_path_join dir (file_name_of (Py.strip s) ++ lit ".pdf"))
      as [b|] eqn:Hfs.
    + destruct (pdfToText_readable E _ b w1 Hfs) as (w2 & _ & Hrun).
      destruct (pdf_error E b).
      * destruct Hrun as [-> _]. intros [= <- _]. cbn.
        rewrite bool_decide_eq_true_2 by done. by right.
      * rewrite Hrun. intros [= <- _]. cbn.
        rewrite bool_decide_eq_true_2 by done. by left.
    + by rewrite (pdfToText_missing E _ w1 Hfs).
  - assert (Hne : lit ".html" ≠ lit ".pdf") by (vm_compute; discriminate).
    rewrite getTextFromFile_other by done.
    destruct (fs w1 !! _) as [b|]; [|done].
    destruct (BeautifulSoup E b) as [soup|msg]; [|done].
    intros [= <- _]. cbn. rewrite bool_decide_eq_false_2 by done. by eexists.
Qed.

End TableFacts.

(** X7. When the set-up goes through, the column is there and the table can
    be written, every record of the output table has, at the end of the
    run, a file in the files directory under the name and extension of the
    record. *)
Theorem every_record_has_its_file (E : Env) (args : Args) (w : World)
    (df : DataFrame) :
  setup_ok E args w df →
  url_field args ∈ df_columns df →
  open_wb_fault E (content_csv_path (output_directory args)) = None →
  ∃ docs w',
    main E args w = (Ok (), w')
    ∧ tables w' !! content_csv_path (output_directory args) = Some docs
    ∧ Forall (λ d, is_Some (fs w' !! Py.os_path_join
                              (files_dir (output_directory args))
                              (d_name d ++ d_ext d))) docs.
Proof.
  intros Hsetup Hcol Hcsv.
  destruct (main_present E args w df Hsetup Hcol)
    as (docs & w2 & Hrun & Hkeys & _ & Hfs & _).
  rewrite to_csv_ok in Hrun by done.
  eexists docs, _. split; [exact Hrun|]. cbn.
  split; [apply lookup_insert_eq|].
  pose proof (batch_results_stored E (length (requests w))
    (files_dir (output_directory args)) (url_cells args df) (fs w)) as Hall.
  rewrite <- Hkeys, <- Hfs in Hall.
  rewrite Forall_fmap in Hall.
  eapply Forall_impl; [exact Hall|]. intros d Hd. exact Hd.
Qed.

Lemma every_record_has_its_file_witness :
  ∃ docs w',
    main Demo.env (Demo.args "three.csv" "link") Demo.world = (Ok (), w')
    ∧ tables w' !! lit "out/content.csv" = Some docs
    ∧ Forall (λ d, is_Some (fs w' !! Py.os_path_join (lit "out/files")
                              (d_name d ++ d_ext d))) docs.
Proof.
  apply (every_record_has_its_file Demo.env (Demo.args "three.csv" "link") Demo.world
           (Demo.link_frame [CStr Demo.url_a; CStr Demo.url_down; CStr Demo.url_paper])).
  - apply (demo_setup_ok "three.csv" "link" [Byte.x02]); vm_compute; reflexivity.
  - exact demo_link_column.
  - reflexivity.
Defined.

(** X3. When the set-up goes through, the column is there and the table can
    be written, no record of the output table with extension [.pdf] carries
    extracted text: its text is [None] or the empty string. The text of
    every other record is a string. *)
Theorem pdf_records_carry_no_text (E : Env) (args : Args) (w : World)
    (df : DataFrame) :
  setup_ok E args w df →
  url_field args ∈ df_columns df →
  open_wb_fault E (content_csv_path (output_directory args)) = None →
  ∃ docs w',
    main E args w = (Ok (), w')
    ∧ tables w' !! content_csv_path (output_directory args) = Some docs
    ∧ Forall (λ d, if bool_decide (d_ext d = lit ".pdf")
                   then d_text d = VNone ∨ d_text d = VStr []
                   else ∃ t, d_text d = VStr t) docs.
Proof.
  intros Hsetup Hcol Hcsv.
  destruct (main_via_loop E args w df Hsetup Hcol) as (w1 & docs & w2 & Hloop & Hrun).
  rewrite to_csv_ok in Hrun by done.
  eexists docs, _. split; [exact Hrun|]. cbn.
  split; [apply lookup_insert_eq|].
  eapply main_loop_Forall; [exact Hcol| |constructor|exact Hloop].
  intros c w0 d w0'. apply processURL_text.
Qed.

Lemma pdf_records_carry_no_text_witness :
  ∃ docs w',
    main Demo.env (Demo.args "three.csv" "link") Demo.world = (Ok (), w')
    ∧ tables w' !! lit "out/content.csv" = Some docs
    ∧ (d_ext <$> docs = [lit ".html"; lit ".pdf"])
    ∧ Forall (λ d, if bool_decide (d_ext d = lit ".pdf")
                   then d_text d = VNone ∨ d_text d = VStr []
                   else ∃ t, d_text d = VStr t) docs.
Proof.
  destruct (pdf_records_carry_no_text Demo.env (Demo.args "three.csv" "link")
              Demo.world
              (Demo.link_frame [CStr Demo.url_a; CStr Demo.url_down; CStr Demo.url_paper]))
    as (docs & w' & Hrun & Htab & Hall).
  - apply (demo_setup_ok "three.csv" "link" [Byte.x02]); vm_compute; reflexivity.
  - exact demo_link_column.
  - reflexivity.
  - exists docs, w'. split; [exact Hrun|]. split; [exact Htab|]. split; [|exact Hall].
    assert (Hw : tables (snd (main Demo.env (Demo.args "three.csv" "link") Demo.world))
                 !! lit "out/content.csv" = Some docs) by (by rewrite Hrun).
    vm_compute in Hw. injection Hw as <-. vm_compute. reflexivity.
Defined.

(** ** Edge cases of [main] *)

(** X9. For an input table without rows (with the URL column), the run
    sends no request, changes no file, announces one URL and writes an
    output table without rows. *)
Theorem empty_table_gives_empty_output (E : Env) (args : Args) (w : World)
    (df : DataFrame) :
  setup_ok E args w df →
  url_field args ∈ df_columns df →
  df_rows df = [] →
  open_wb_fault E (content_csv_path (output_directory args)) = None →
  ∃ w',
    main E args w = (Ok (), w')
    ∧ requests w' = requests w
    ∧ fs w' = fs w
    ∧ tables w' = <[content_csv_path (output_directory args) := []]> (tables w)
    ∧ now E (ticks w + 2)%nat ++ lit " | Found " ++ Py.str_of_nat 1 ++ lit " URLs"
      ∈ stdout w'.
Proof.
  intros Hsetup Hcol Hrows Hcsv.
  destruct (main_present E args w df Hsetup Hcol)
    as (docs & w2 & Hrun & Hkeys & Hreq & Hfs & Htab & Hfound & _).
  unfold url_cells in Hkeys, Hreq, Hfs. rewrite Hrows in Hkeys, Hreq, Hfs, Hfound.
  cbn in Hkeys, Hreq, Hfs, Hfound.
  apply fmap_nil_inv in Hkeys. subst docs.
  rewrite to_csv_ok in Hrun by done.
  eexists. split; [exact Hrun|]. cbn. rewrite app_nil_r in Hreq.
  split; [done|]. split; [done|]. split; [by rewrite Htab|exact Hfound].
Qed.

Lemma empty_table_gives_empty_output_witness :
  ∃ w',
    main Faulty.env_no_rows (Demo.args "two.csv" "link") Demo.world = (Ok (), w')
    ∧ requests w' = []
    ∧ fs w' = fs Demo.world
    ∧ tables w' !! lit "out/content.csv" = Some []
    ∧ lit "2023-05-01 12:00:02 | Found 1 URLs" ∈ stdout w'.
Proof.
  destruct (empty_table_gives_empty_output Faulty.env_no_rows
              (Demo.args "two.csv" "link") Demo.world (Demo.link_frame []))
    as (w' & Hrun & Hreq & Hfs & Htab & Hfound).
  - split; [by right|]. split; [by right|]. by exists [Byte.x01].
  - exact demo_link_column.
  - reflexivity.
  - reflexivity.
  - exists w'. split; [exact Hrun|]. split; [exact Hreq|]. split; [exact Hfs|].
    split; [|exact Hfound]. rewrite Htab. apply lookup_insert_eq.
Defined.

(** X10. When the input file is missing or pandas rejects it, [main] ends
    with that exception uncaught (exit status 1), after the two output
    directories have been made and before any request is sent; no file and
    no table is written. *)
Theorem unreadable_input_aborts_the_run (E : Env) (args : Args) (w : World)
    (msg : str) :
  output_directory args ∈ dirs w ∨ mkdir_fault E (output_directory args) = None →
  files_dir (output_directory args) ∈ dirs w
  ∨ mkdir_fault E (files_dir (output_directory args)) = None →
  input_failure E args w = Some msg →
  ∃ w',
    main E args w = (Raise (Exception msg), w')
    ∧ exit_status (fst (main E args w)) = 1%Z
    ∧ output_directory args ∈ dirs w'
    ∧ files_dir (output_directory args) ∈ dirs w'
    ∧ requests w' = requests w ∧ fs w' = fs w ∧ tables w' = tables w.
Proof.
  intros Hout Hfiles Hin. unfold input_failure in Hin.
  assert (Hsetup : ∃ w',
    main_setup E args w = (Raise (Exception msg), w')
    ∧ output_directory args ∈ dirs w'
    ∧ files_dir (output_directory args) ∈ dirs w'
    ∧ requests w' = requests w ∧ fs w' = fs w ∧ tables w' = tables w).
  { unfold main_setup. munfold. cbn.
    assert (Hread : ∀ w0, fs w0 = fs w →
              (open_rb (input_csv args) ≫= λ b0, call (read_csv E b0)) w0
              = (Raise (Exception msg), w0)).
    { intros w0 Hw0. munfold. rewrite Hw0.
      destruct (fs w !! input_csv args) as [b|]; [|by injection Hin as <-].
      destruct (read_csv E b) as [df|m]; [done|]. by injection Hin as <-. }
    case_bool_decide as Hin1; cbn.
    - case_bool_decide as Hin2; cbn.
      + rewrite Hread by done. eexists. split; [reflexivity|]. cbn. by split_and!.
      + destruct Hfiles as [Hd | ->]; [done|]. cbn.
        rewrite Hread by done. eexists. split; [reflexivity|]. cbn.
        split_and!; try done; set_solver.
    - destruct Hout as [? | ->]; [done|]. cbn.
      case_bool_decide as Hin2; cbn.
      + rewrite Hread by done. eexists. split; [reflexivity|]. cbn.
        split_and!; try done; set_solver.
      + destruct Hfiles as [Hd | ->]; [exfalso; apply Hin2; set_solver|]. cbn.
        rewrite Hread by done. eexists. split; [reflexivity|]. cbn.
        split_and!; try done; set_solver. }
  destruct Hsetup as (w' & Hrun & Hrest).
  assert (Hmain : main E args w = (Raise (Exception msg), w')).
  { unfold main. munfold. by rewrite Hrun. }
  exists w'. rewrite Hmain. split; [done|]. split; [done|exact Hrest].
Qed.

Lemma unreadable_input_aborts_the_run_witness :
  ∃ w',
    main Demo.env (Demo.args "absent.csv" "link") Demo.world
    = (Raise (Exception (lit "[Errno 2] No such file or directory")), w')
    ∧ lit "out" ∈ dirs w' ∧ lit "out/files" ∈ dirs w'
    ∧ requests w' = [] ∧ fs w' = fs Demo.world ∧ tables w' = ∅.
Proof.
  destruct (unreadable_input_aborts_the_run Demo.env (Demo.args "absent.csv" "link")
              Demo.world (lit "[Errno 2] No such file or directory"))
    as (w' & Hrun & _ & Hrest).
  - by right.
  - by right.
  - vm_compute. reflexivity.
  - exists w'. split; [exact Hrun|exact Hrest].
Defined.

(** ** What a failing row prints and leaves behind *)

(** X11. A row whose cell is no string (an empty cell read as NaN, a
    number) is announced, sends no request and changes no file; the
    [AttributeError] of [url.strip()] is caught by the loop, which prints
    the cell and the message and goes on with the records it had. *)
Theorem non_string_cell_is_reported (E : Env) (df : DataFrame) (col dir : str)
    (url_count ind : nat) (row : str → cell) (sofar : list Document) (w : World)
    (ty printed : str) :
  col ∈ df_columns df →
  row col = COther ty printed →
  ∃ w',
    process_row E df col dir url_count ind row sofar w = (Ok sofar, w')
    ∧ stdout w'
      = stdout w
        ++ [progress_line (now E (ticks w)) ind url_count (COther ty printed);
            row_error_line (COther ty printed) (no_strip_message ty)]
    ∧ requests w' = requests w ∧ fs w' = fs w ∧ tables w' = tables w.
Proof.
  intros Hcol Hcell. rewrite process_row_run by done. cbv zeta. rewrite Hcell.
  eexists. split; [reflexivity|]. cbn. split; [|done].
  by rewrite <- app_assoc.
Qed.

Lemma non_string_cell_is_reported_witness :
  ∃ w',
    process_row Demo.env (Demo.link_frame [COther (lit "float") (lit "nan")])
      (lit "link") (lit "out/files") 2 0 (λ _, COther (lit "float") (lit "nan"))
      [] Demo.world = (Ok [], w')
    ∧ stdout w'
      = [lit "2023-05-01 12:00:00 | Processing 1/2        | nan";
         lit "ERROR: nan " ++ [Py.LF]
           ++ lit " 'float' object has no attribute 'strip'"]
    ∧ requests w' = [] ∧ fs w' = fs Demo.world ∧ tables w' = ∅.
Proof.
  apply (non_string_cell_is_reported Demo.env
           (Demo.link_frame [COther (lit "float") (lit "nan")])
           (lit "link") (lit "out/files") 2 0
           (λ _, COther (lit "float") (lit "nan")) [] Demo.world
           (lit "float") (lit "nan")).
  - exact demo_link_column.
  - reflexivity.
Defined.

(** X12. A row whose fetch fails (in the request, in opening or in writing
    the file) is announced, then the exception is printed by [getUrl] and
    the name of the file by [processURL], which returns [None]: exactly
    these three lines are printed, one request is sent and no record is
    added. *)
Theorem failed_fetch_is_reported (E : Env) (df : DataFrame) (col dir : str)
    (url_count ind : nat) (row : str → cell) (sofar : list Document) (w : World)
    (s msg : str) :
  col ∈ df_columns df →
  row col = CStr s →
  fetch_failure E (length (requests w)) (Py.strip s)
    (Py.os_path_join dir
       (file_name_of (Py.strip s) ++ file_ext_of (Py.strip s))) = Some msg →
  ∃ w',
    process_row E df col dir url_count ind row sofar w = (Ok sofar, w')
    ∧ stdout w'
      = stdout w
        ++ [progress_line (now E (ticks w)) ind url_count (CStr s);
            fetch_failed_line msg;
            lit "ERROR Processing: " ++ file_name_of (Py.strip s)]
    ∧ requests w' = requests w ++ [Py.strip s]
    ∧ tables w' = tables w.
Proof.
  intros Hcol Hcell Hfail. rewrite process_row_run by done. cbv zeta.
  rewrite Hcell, processURL_run. cbv zeta. rewrite getUrl_run. cbv zeta.
  unfold fetch_failure in Hfail. cbn [requests set_stdout set_ticks] in *.
  destruct (requests_get E (length (requests w)) (Py.strip s) fetch_headers)
    as [resp|m].
  2: { injection Hfail as ->. eexists. split; [reflexivity|]. cbn.
       split; [|done]. by rewrite <- !app_assoc. }
  destruct (open_wb_fault E _) as [m|].
  { injection Hfail as ->. eexists. split; [reflexivity|]. cbn.
    split; [|done]. by rewrite <- !app_assoc. }
  destruct (write_fault E _ (content resp)) as [[m n]|]; [|done].
  cbn in Hfail. injection Hfail as ->. eexists. split; [reflexivity|]. cbn.
  split; [|done]. by rewrite <- !app_assoc.
Qed.

Lemma failed_fetch_is_reported_witness :
  ∃ w',
    process_row Demo.env (Demo.link_frame [CStr Demo.url_down])
      (lit "link") (lit "out/files") 2 0 (λ _, CStr Demo.url_down) [] Demo.world
    = (Ok [], w')
    ∧ stdout w'
      = [lit "2023-05-01 12:00:00 | Processing 1/2        | https://down.example/index.html";
         lit ">>>Exception in getting the URL:Connection refused";
         lit "ERROR Processing: index"]
    ∧ requests w' = [Demo.url_down]
    ∧ tables w' = ∅.
Proof.
  apply (failed_fetch_is_reported Demo.env (Demo.link_frame [CStr Demo.url_down])
           (lit "link") (lit "out/files") 2 0 (λ _, CStr Demo.url_down) []
           Demo.world Demo.url_down (lit "Connection refused")).
  - exact demo_link_column.
  - reflexivity.
  - vm_compute. reflexivity.
Defined.

(** X13. A row that is fetched but whose HTML cannot be parsed leaves its
    file in the files directory without a record: the exception of the
    parser passes through [getTextFromFile] and [processURL], the loop
    prints it with the URL and goes on with the records it had. *)
Theorem unparsed_row_keeps_its_file (E : Env) (df : DataFrame) (col dir : str)
    (url_count ind : nat) (row : str → cell) (sofar : list Document) (w : World)
    (s msg : str) (resp : Response) :
  let url := Py.strip s in
  let path := Py.os_path_join dir (file_name_of url ++ file_ext_of url) in
  col ∈ df_columns df →
  row col = CStr s →
  file_ext_of url = lit ".html" →
  fetched E (length (requests w)) url path = Some resp →
  BeautifulSoup E (content resp) = Throws msg →
  ∃ w',
    process_row E df col dir url_count ind row sofar w = (Ok sofar, w')
    ∧ fs w' = <[path := content resp]> (fs w)
    ∧ stdout w'
      = stdout w
        ++ [progress_line (now E (ticks w)) ind url_count (CStr s);
            row_error_line (CStr s) msg]
    ∧ tables w' = tables w.
Proof.
  intros url path Hcol Hcell Hext Hfetch Hparse.
  apply fetched_Some in Hfetch as (Hget & Hopen & Hwrite).
  rewrite process_row_run by done. cbv zeta.
  rewrite Hcell, processURL_run. cbv zeta. fold url. fold path.
  rewrite getUrl_run. cbv zeta. cbn [requests set_stdout set_ticks].
  rewrite Hget, Hopen, Hwrite.
  assert (Hne : file_ext_of url ≠ lit ".pdf")
    by (rewrite Hext; vm_compute; discriminate).
  rewrite getTextFromFile_other by done. cbn [fs set_fs set_requests set_stdout set_ticks].
  rewrite lookup_insert_eq, Hparse.
  eexists. split; [reflexivity|]. cbn.
  split; [by rewrite insert_insert_eq|]. split; [|done].
  by rewrite <- !app_assoc.
Qed.

Lemma unparsed_row_keeps_its_file_witness :
  ∃ w',
    process_row Faulty.env_no_parse (Demo.link_frame [CStr Demo.url_a])
      (lit "link") (lit "out/files") 2 0 (λ _, CStr Demo.url_a) [] Demo.world
    = (Ok [], w')
    ∧ fs w' !! lit "out/files/a.html" = Some [Byte.x25; Byte.x50]
    ∧ tables w' = ∅.
Proof.
  destruct (unparsed_row_keeps_its_file Faulty.env_no_parse
              (Demo.link_frame [CStr Demo.url_a]) (lit "link") (lit "out/files")
              2 0 (λ _, CStr Demo.url_a) [] Demo.world Demo.url_a
              (lit "markup rejected")
              {| status_code := 200; content := [Byte.x25; Byte.x50] |})
    as (w' & Hrun & Hfs & _ & Htab).
  - exact demo_link_column.
  - reflexivity.
  - vm_compute. reflexivity.
  - vm_compute. reflexivity.
  - reflexivity.
  - exists w'. split; [exact Hrun|]. split; [|exact Htab].
    rewrite Hfs. vm_compute. reflexivity.
Defined.

(** ** The requests and the files of a whole run *)
Section RunFacts.
Context (E : Env).

Lemma row_store_outside (k : nat) (dir : str) (c : cell) (files : gmap str bytes)
    (p : str) :
  ¬ dir `prefix_of` p → row_store E k dir c files !! p = files !! p.
Proof.
  intros Hp. unfold row_store. destruct c as [s|ty printed]; [|done].
  assert (Hne : Py.os_path_join dir
                  (file_name_of (Py.strip s) ++ file_ext_of (Py.strip s)) ≠ p).
  { intros <-. apply Hp, stored_path_in_dir. }
  destruct (requests_get E k _ fetch_headers) as [resp|msg]; [|done].
  destruct (open_wb_fault E _) as [msg|]; [done|].
  destruct (write_fault E _ (content resp)) as [[msg n]|];
    by rewrite lookup_insert_ne.
Qed.

Lemma batch_store_outside (k : nat) (dir : str) (cells : list cell)
    (files : gmap str bytes) (p : str) :
  ¬ dir `prefix_of` p → batch_store E k dir cells files !! p = files !! p.
Proof.
  intros Hp. revert k files. induction cells as [|c cs IH]; intros k files; [done|].
  cbn. by rewrite IH, row_store_outside.
Qed.

End RunFacts.

(** X14. When the set-up goes through and the column is there, the run
    sends exactly one request for every cell that is a string, for its
    stripped URL and in input order, and none for the other cells,
    whichever rows fail: no URL is retried and none is skipped. *)
Theorem one_request_per_string_cell (E : Env) (args : Args) (w : World)
    (df : DataFrame) :
  setup_ok E args w df →
  url_field args ∈ df_columns df →
  ∃ r w',
    main E args w = (r, w')
    ∧ requests w' = requests w ++ concat (cell_requests <$> url_cells args df).
Proof.
  intros Hsetup Hcol.
  destruct (main_present E args w df Hsetup Hcol)
    as (docs & w2 & Hrun & _ & Hreq & _).
  rewrite Hrun. unfold to_csv.
  destruct (open_wb_fault E _); by eexists _, _.
Qed.

Lemma one_request_per_string_cell_witness :
  ∃ r w',
    main Demo.env (Demo.args "three.csv" "link") Demo.world = (r, w')
    ∧ requests w'
      = [Demo.url_a; Demo.url_down; lit "https://example.com/paper.pdf"].
Proof.
  destruct (one_request_per_string_cell Demo.env (Demo.args "three.csv" "link")
              Demo.world
              (Demo.link_frame [CStr Demo.url_a; CStr Demo.url_down; CStr Demo.url_paper]))
    as (r & w' & Hrun & Hreq).
  - apply (demo_setup_ok "three.csv" "link" [Byte.x02]); vm_compute; reflexivity.
  - exact demo_link_column.
  - exists r, w'. split; [exact Hrun|]. rewrite Hreq. vm_compute. reflexivity.
Defined.

(** X15. When the set-up goes through and the column is there, the run
    removes no file, and apart from the output table [content.csv] it
    changes no file whose path does not begin with the path of the files
    directory; of the tables, only the one at [content.csv] can change. *)
Theorem run_writes_only_files_and_table (E : Env) (args : Args) (w : World)
    (df : DataFrame) :
  setup_ok E args w df →
  url_field args ∈ df_columns df →
  ∃ r w',
    main E args w = (r, w')
    ∧ (∀ p, is_Some (fs w !! p) → is_Some (fs w' !! p))
    ∧ (∀ p, ¬ files_dir (output_directory args) `prefix_of` p →
            p ≠ content_csv_path (output_directory args) →
            fs w' !! p = fs w !! p)
    ∧ (∀ p, p ≠ content_csv_path (output_directory args) →
            tables w' !! p = tables w !! p).
Proof.
  intros Hsetup Hcol.
  destruct (main_present E args w df Hsetup Hcol)
    as (docs & w2 & Hrun & _ & _ & Hfs & Htab & _).
  assert (Hw : fs (snd (main E args w)) = fs w2
               ∧ ∀ p, p ≠ content_csv_path (output_directory args) →
                      tables (snd (main E args w)) !! p = tables w2 !! p).
  { rewrite Hrun. unfold to_csv. destruct (open_wb_fault E _); [done|].
    split; [done|]. intros p Hp. cbn. by rewrite lookup_insert_ne. }
  destruct Hw as [Hw Ht].
  destruct (main E args w) as [r w'] eqn:Hmain. cbn in Hw, Ht.
  exists r, w'. split; [done|]. rewrite Hw, Hfs. split; [|split].
  - intros p Hp. by apply batch_store_keeps.
  - intros p Hp _. by apply batch_store_outside.
  - intros p Hp. by rewrite Ht, Htab.
Qed.

Lemma run_writes_only_files_and_table_witness :
  ∃ r w',
    main Demo.env (Demo.args "three.csv" "link") Demo.world = (r, w')
    ∧ fs w' !! lit "three.csv" = Some [Byte.x02]
    ∧ is_Some (fs w' !! lit "some.pdf")
    ∧ tables w' !! lit "out/files/a.html" = None.
Proof.
  destruct (run_writes_only_files_and_table Demo.env (Demo.args "three.csv" "link")
              Demo.world
              (Demo.link_frame [CStr Demo.url_a; CStr Demo.url_down; CStr Demo.url_paper]))
    as (r & w' & Hrun & Hkeep & Hout & Htab).
  - apply (demo_setup_ok "three.csv" "link" [Byte.x02]); vm_compute; reflexivity.
  - exact demo_link_column.
  - exists r, w'. split; [exact Hrun|]. split; [|split].
    + rewrite Hout; [vm_compute; reflexivity| |vm_compute; discriminate].
      intros Hpre. apply (bool_decide_pack _) in Hpre. vm_compute in Hpre. exact Hpre.
    + apply Hkeep. vm_compute. by eexists.
    + rewrite Htab; [reflexivity|]. vm_compute. discriminate.
Defined.

(** X16. Two rows whose URLs give the same file name and extension share
    one file: when both go through, the table has a record for each, with
    equal name and extension, and the one file added holds the response of
    the second row. *)
Theorem same_name_rows_share_one_file (E : Env) (args : Args) (w : World)
    (df : DataFrame) (s1 s2 : str) (r1 r2 : Response) :
  let dir := files_dir (output_directory args) in
  let u1 := Py.strip s1 in
  let u2 := Py.strip s2 in
  let path := Py.os_path_join dir (file_name_of u2 ++ file_ext_of u2) in
  setup_ok E args w df →
  url_field args ∈ df_columns df →
  open_wb_fault E (content_csv_path (output_directory args)) = None →
  url_cells args df = [CStr s1; CStr s2] →
  file_name_of u1 = file_name_of u2 →
  file_ext_of u1 = file_ext_of u2 →
  fetched E (length (requests w)) u1 path = Some r1 →
  extracted E (file_ext_of u1) r1 = true →
  fetched E (length (requests w) + 1) u2 path = Some r2 →
  extracted E (file_ext_of u2) r2 = true →
  ∃ d1 d2 w',
    main E args w = (Ok (), w')
    ∧ tables w' !! content_csv_path (output_directory args) = Some [d1; d2]
    ∧ d_url d1 = u1 ∧ d_url d2 = u2
    ∧ d_name d1 = d_name d2 ∧ d_ext d1 = d_ext d2
    ∧ fs w' = <[path := content r2]> (fs w).
Proof.
  intros dir u1 u2 path Hsetup Hcol Hcsv Hcells Hname Hext Hf1 Hx1 Hf2 Hx2.
  destruct (main_present E args w df Hsetup Hcol)
    as (docs & w2 & Hrun & Hkeys & _ & Hfs & _).
  rewrite to_csv_ok in Hrun by done.
  rewrite Hcells in Hkeys, Hfs. fold dir in Hkeys, Hfs.
  destruct (row_fetched E (length (requests w)) dir s1 r1) as [Hk1 Hst1].
  { fold u1. by rewrite Hname, Hext. }
  { done. }
  destruct (row_fetched E (length (requests w) + 1) dir s2 r2) as [Hk2 Hst2];
    [done..|].
  fold u1 in Hk1, Hst1. fold u2 in Hk2, Hst2.
  rewrite Hname, Hext in Hst1. fold path in Hst1, Hst2.
  cbn [batch_results batch_store cell_requests length] in Hkeys, Hfs.
  rewrite Hk1, Hk2 in Hkeys. rewrite Hst1, Hst2, insert_insert_eq in Hfs.
  cbn in Hkeys.
  destruct docs as [|d1 [|d2 [|d3 docs]]]; try done.
  cbn [fmap list_fmap] in Hkeys.
  injection Hkeys as Hn1 He1 Hu1 Hn2 He2 Hu2.
  exists d1, d2. eexists. split; [exact Hrun|]. cbn.
  split; [apply lookup_insert_eq|].
  split; [done|]. split; [done|]. split; [congruence|]. split; [congruence|done].
Qed.

Lemma same_name_rows_share_one_file_witness :
  ∃ d1 d2 w',
    main Faulty.env_same_name (Demo.args "two.csv" "link") Demo.world = (Ok (), w')
    ∧ tables w' !! lit "out/content.csv" = Some [d1; d2]
    ∧ d_url d1 = lit "https://example.com/index.html"
    ∧ d_url d2 = lit "https://example.org/index.html?lang=en"
    ∧ d_name d1 = d_name d2 ∧ d_ext d1 = d_ext d2
    ∧ fs w' = <[lit "out/files/index.html" := [Byte.x25; Byte.x50]]> (fs Demo.world).
Proof.
  apply (same_name_rows_share_one_file Faulty.env_same_name
           (Demo.args "two.csv" "link") Demo.world
           (Demo.link_frame [CStr (lit "https://example.com/index.html");
                             CStr (lit "https://example.org/index.html?lang=en")])
           (lit "https://example.com/index.html")
           (lit "https://example.org/index.html?lang=en")
           {| status_code := 200; content := [Byte.x25; Byte.x50] |}
           {| status_code := 200; content := [Byte.x25; Byte.x50] |}).
  - split; [by right|]. split; [by right|]. by exists [Byte.x01].
  - exact demo_link_column.
  - reflexivity.
  - reflexivity.
  - vm_compute. reflexivity.
  - vm_compute. reflexivity.
  - vm_compute. reflexivity.
  - vm_compute. reflexivity.
  - vm_compute. reflexivity.
  - vm_compute. reflexivity.
Defined.
